(** * Risk OS dashboard: the risk calculation engine of [dashboard.py]

    A shallow embedding of the engine's functions and the properties of
    the specification proved about them.

    Conventions of the embedding.
    - SQLite [REAL] columns and Python floats are exact rationals ([Q]);
      rounding of binary floating point is outside the model.  Equality of
      amounts is [Qeq] ([==]).
    - SQLite [INTEGER] columns and Python ints are [Z]; an int that meets a
      float in an expression is injected with [inject_Z].
    - Python's [/] raises [ZeroDivisionError] on a zero divisor: [pydiv]
      returns [None] there, and every function that divides lives in the
      option monad ([None] = an exception escaped).
    - A table with a primary key is a [gmap] from the key to its row; a
      table read in order is a list.
    - [datetime.now()] is an argument of the functions that call it. *)

From Stdlib Require Import QArith Qround Qabs Qminmax ZArith Lia Lqa Ascii String.
From stdpp Require Import gmap strings list fin_maps pretty.

Local Open Scope Q_scope.

(** ** Numbers *)

Module Py.

(** [a / b] on Python floats. *)
Definition pydiv (a b : Q) : option Q :=
  if Qeq_bool b 0 then None else Some (a / b).

(** [a < b] as a boolean. *)
Definition Qlt_bool (a b : Q) : bool := negb (Qle_bool b a).

(** [int(x)]: truncation toward zero. *)
Definition int (x : Q) : Z :=
  if Qle_bool 0 x then Qfloor x else Qceiling x.

(** [abs(x)]. *)
Definition abs (x : Q) : Q := Qabs x.

(** [min(a, b)] on ints: [a] unless [b] is strictly smaller. *)
Definition min (a b : Z) : Z := if (b <? a)%Z then b else a.

End Py.

(** ** Risk parameter constants *)

Definition BASE_1R_PCT : Q := 1 # 100.
Definition MAX_POS_SIZE_PCT : Q := 20 # 100.

(** ** Open-risk calculations (section 3 of the source) *)

(** [calculate_or_r(entry_price, stop_loss, quantity, current_1r_unit)] *)
Definition calculate_or_r (entry_price stop_loss : Q) (quantity : Z)
    (current_1r_unit : Q) : option Q :=
  let or_amount := Py.abs (entry_price - stop_loss) * inject_Z quantity in
  if Py.Qlt_bool 0 current_1r_unit
  then Py.pydiv or_amount current_1r_unit
  else Some 0.

(** [calculate_dynamic_or(entry_price, stop_loss, quantity, current_1r_unit)] *)
Definition calculate_dynamic_or (entry_price stop_loss : Q) (quantity : Z)
    (current_1r_unit : Q) : option Q :=
  if Qle_bool entry_price stop_loss then Some 0
  else
    let or_amount := (entry_price - stop_loss) * inject_Z quantity in
    if Py.Qlt_bool 0 current_1r_unit
    then Py.pydiv or_amount current_1r_unit
    else Some 0.

(** ** Regime parameters *)

Record RegimeParams := {
  tor_limit : Q;
  r_multiplier : Q;
  color : string;
  desc : string
}.

Definition GREEN_params : RegimeParams :=
  {| tor_limit := 5; r_multiplier := 1; color := "#00c864";
     desc := "정상 운용: 공격적 실행 (Full Speed)" |}.

Definition YELLOW_params : RegimeParams :=
  {| tor_limit := 3; r_multiplier := 1 # 2; color := "#ffaa00";
     desc := "경계 모드: 판돈 및 빈도 동시 감속 (Half Speed)" |}.

Definition RED_params : RegimeParams :=
  {| tor_limit := 1; r_multiplier := 1 # 4; color := "#ff3232";
     desc := "생존 모드: 현금 비중 최대화 (Survival Only)" |}.

(** The dict [params] of [get_regime_params]. *)
Definition params : gmap string RegimeParams :=
  <["GREEN" := GREEN_params]>
    (<["YELLOW" := YELLOW_params]>
      (<["RED" := RED_params]> ∅)).

(** [get_regime_params(regime)]: [params.get(regime, params["GREEN"])]. *)
Definition get_regime_params (regime : string) : RegimeParams :=
  default GREEN_params (params !! regime).

(** ** Data model (section 2 of the source: the SQLite tables) *)

(** A row of table [portfolio]; the column [ticker] is the key of the map
    that holds it.  [breakdown_low] and [initial_stop_loss] were added by
    [update_db_schema] and are [NULL] in rows older than the column. *)
Record Position := {
  entry_price : Q;
  stop_loss : Q;
  quantity : Z;
  sector : string;
  entry_date : string;
  breakdown_low : option Q;
  initial_stop_loss : option Q
}.

(** A row of table [trade_history].  The autoincrement [id] is the place of
    the row in the list; after [migrate_trade_data] no row has a [NULL]
    [trade_id] or [exit_qty]. *)
Record TradeRow := {
  tr_ticker : string;
  tr_entry_date : string;
  tr_exit_date : string;
  tr_entry_price : Q;
  tr_exit_price : Q;
  r_multiple : Q;
  trade_id : string;
  exit_qty : Z
}.

(** The single row ([id = 1]) of table [account_config]. *)
Record Account := {
  total_equity : Q;
  last_updated : string
}.

Record DB := {
  portfolio : gmap string Position;
  trade_history : list TradeRow;
  account_config : Account
}.

Definition set_portfolio (f : gmap string Position -> gmap string Position)
    (db : DB) : DB :=
  {| portfolio := f (portfolio db);
     trade_history := trade_history db;
     account_config := account_config db |}.

Definition set_stop_loss (s : Q) (p : Position) : Position :=
  {| entry_price := entry_price p; stop_loss := s; quantity := quantity p;
     sector := sector p; entry_date := entry_date p;
     breakdown_low := breakdown_low p;
     initial_stop_loss := initial_stop_loss p |}.

Definition set_quantity (q : Z) (p : Position) : Position :=
  {| entry_price := entry_price p; stop_loss := stop_loss p; quantity := q;
     sector := sector p; entry_date := entry_date p;
     breakdown_low := breakdown_low p;
     initial_stop_loss := initial_stop_loss p |}.

(** [INSERT INTO trade_history ...] *)
Definition insert_trade (row : TradeRow) (db : DB) : DB :=
  {| portfolio := portfolio db;
     trade_history := trade_history db ++ [row];
     account_config := account_config db |}.

(** [UPDATE account_config SET total_equity = total_equity + ?,
    last_updated = ? WHERE id = 1] *)
Definition credit_equity (amount : Q) (now : string) (db : DB) : DB :=
  {| portfolio := portfolio db;
     trade_history := trade_history db;
     account_config :=
       {| total_equity := total_equity (account_config db) + amount;
          last_updated := now |} |}.

(** [str.upper()] on the ASCII letters. *)
Definition upper_ascii (c : ascii) : ascii :=
  let n := N_of_ascii c in
  if ((97 <=? n) && (n <=? 122))%N then ascii_of_N (n - 32) else c.

Fixpoint upper (s : string) : string :=
  match s with
  | EmptyString => EmptyString
  | String c s' => String (upper_ascii c) (upper s')
  end.

(** ** Open-risk ledger operations *)

(** [add_position(ticker, entry, stop, qty, sector)].  A
    [ZeroDivisionError] of the average price is caught by the [except]
    clause, which reports it and leaves the tables as they were. *)
Definition add_position (ticker : string) (entry stop : Q) (qty : Z)
    (sector_ : string) (today : string) (db : DB) : DB :=
  let ticker := upper ticker in
  match portfolio db !! ticker with
  | Some existing_pos =>
      let old_price := entry_price existing_pos in
      let old_qty := quantity existing_pos in
      let total_qty := (old_qty + qty)%Z in
      match Py.pydiv (old_price * inject_Z old_qty + entry * inject_Z qty)
                     (inject_Z total_qty) with
      | Some wac_price =>
          set_portfolio
            (insert ticker
               {| entry_price := wac_price; stop_loss := stop;
                  quantity := total_qty; sector := sector_;
                  entry_date := entry_date existing_pos;
                  breakdown_low := breakdown_low existing_pos;
                  initial_stop_loss := Some stop |}) db
      | None => db
      end
  | None =>
      set_portfolio
        (insert ticker
           {| entry_price := entry; stop_loss := stop; quantity := qty;
              sector := sector_; entry_date := today;
              breakdown_low := None;
              initial_stop_loss := Some stop |}) db
  end.

(** [delete_position(ticker)] *)
Definition delete_position (ticker : string) (db : DB) : DB :=
  set_portfolio (delete ticker) db.

(** [update_stop_loss(ticker, new_stop_price)] *)
Definition update_stop_loss (ticker : string) (new_stop_price : Q)
    (db : DB) : DB :=
  set_portfolio (alter (set_stop_loss new_stop_price) ticker) db.

(** ** Trade ledger: exits *)

(** [f"{ticker}_{entry_date}"] *)
Definition make_trade_id (ticker entry_date_ : string) : string :=
  ticker +:+ "_" +:+ entry_date_.

(** [close_position(ticker, exit_price, qty_to_close)] *)
Definition close_position (ticker : string) (exit_price : Q)
    (qty_to_close : Z) (today now : string) (db : DB) : option DB :=
  match portfolio db !! ticker with
  | Some row_data =>
      let entry_p := entry_price row_data in
      let stop_p := stop_loss row_data in
      let current_qty := quantity row_data in
      let entry_date_ := entry_date row_data in
      let init_stop := default stop_p (initial_stop_loss row_data) in
      let qty_to_close :=
        if (current_qty <? qty_to_close)%Z then current_qty
        else qty_to_close in
      let r_unit := Py.abs (entry_p - init_stop) in
      r_multiple_ ←
        (if negb (Qeq_bool r_unit 0)
         then Py.pydiv (exit_price - entry_p) r_unit
         else Some 0);
      let trade_id_ := make_trade_id ticker entry_date_ in
      let db1 :=
        insert_trade
          {| tr_ticker := ticker; tr_entry_date := entry_date_;
             tr_exit_date := today; tr_entry_price := entry_p;
             tr_exit_price := exit_price; r_multiple := r_multiple_;
             trade_id := trade_id_; exit_qty := qty_to_close |} db in
      let pnl_dollars := (exit_price - entry_p) * inject_Z qty_to_close in
      let db2 := credit_equity pnl_dollars now db1 in
      let remaining_qty := (current_qty - qty_to_close)%Z in
      if (0 <? remaining_qty)%Z
      then Some (set_portfolio (alter (set_quantity remaining_qty) ticker) db2)
      else Some (set_portfolio (delete ticker) db2)
  | None => Some db
  end.

(** [process_partial_exit(ticker, exit_qty, exit_px, entry_px,
    current_1r_unit)].  When no row of [portfolio] has the ticker,
    [c.fetchone()[0]] raises before the commit. *)
Definition process_partial_exit (ticker : string) (exit_qty_ : Z)
    (exit_px entry_px current_1r_unit : Q) (today now : string)
    (db : DB) : option DB :=
  '(realized_r, original_entry_date) ←
    match portfolio db !! ticker with
    | Some row =>
        let calc_stop := default (stop_loss row) (initial_stop_loss row) in
        let r_unit_fixed := Py.abs (entry_px - calc_stop) in
        realized_r ←
          (if Py.Qlt_bool 0 r_unit_fixed
           then Py.pydiv (exit_px - entry_px) r_unit_fixed
           else Some 0);
        Some (realized_r, entry_date row)
    | None => Some (0, today)
    end;
  let trade_id_ := make_trade_id ticker original_entry_date in
  let db1 :=
    insert_trade
      {| tr_ticker := ticker +:+ "(P)"; tr_entry_date := original_entry_date;
         tr_exit_date := today; tr_entry_price := entry_px;
         tr_exit_price := exit_px; r_multiple := realized_r;
         trade_id := trade_id_; exit_qty := exit_qty_ |} db in
  let pnl_dollars := (exit_px - entry_px) * inject_Z exit_qty_ in
  let db2 := credit_equity pnl_dollars now db1 in
  let db3 :=
    set_portfolio
      (alter (fun p => set_quantity (quantity p - exit_qty_)%Z p) ticker)
      db2 in
  row ← portfolio db3 !! ticker;
  let remaining_qty := quantity row in
  if (remaining_qty <=? 0)%Z
  then Some (set_portfolio (delete ticker) db3)
  else Some db3.

(** ** Expectancy *)

Fixpoint Qsum (l : list Q) : Q :=
  match l with
  | [] => 0
  | x :: l' => x + Qsum l'
  end.

Fixpoint Zsum (l : list Z) : Z :=
  match l with
  | [] => 0%Z
  | x :: l' => (x + Zsum l')%Z
  end.

(** [Series.mean()] on a non-empty series. *)
Definition mean (l : list Q) : Q := Qsum l / inject_Z (Z.of_nat (length l)).

(** The rows of one [groupby('trade_id')] group, in frame order. *)
Definition group (df : list TradeRow) (tid : string) : list TradeRow :=
  filter (fun r => trade_id r = tid) df.

(** [df.groupby('trade_id')['exit_qty'].transform('sum')] at a row of
    group [tid]. *)
Definition total_qty_per_trade (df : list TradeRow) (tid : string) : Z :=
  Zsum (exit_qty <$> group df tid).

(** [df['weight']] at row [r]: [exit_qty / total_qty_per_trade] with
    [fillna(0)].  On int columns [0 / 0] is [NaN], which [fillna] turns into
    [0]; a non-zero quantity over a zero total is an infinity, which no
    rational stands for: [None]. *)
Definition weight (df : list TradeRow) (r : TradeRow) : option Q :=
  let total := total_qty_per_trade df (trade_id r) in
  if (total =? 0)%Z
  then (if (exit_qty r =? 0)%Z then Some 0 else None)
  else Some (inject_Z (exit_qty r) / inject_Z total).

(** [df['contribution_r']] at row [r]. *)
Definition contribution_r (df : list TradeRow) (r : TradeRow) : option Q :=
  w ← weight df r; Some (r_multiple r * w).

Fixpoint sum_contributions (df g : list TradeRow) : option Q :=
  match g with
  | [] => Some 0
  | r :: g' =>
      c ← contribution_r df r;
      s ← sum_contributions df g';
      Some (c + s)
  end.

(** [trade_grouped['total_trade_r']] at group [tid]. *)
Definition total_trade_r (df : list TradeRow) (tid : string) : option Q :=
  sum_contributions df (group df tid).

(** The column [total_trade_r] of [trade_grouped], one entry per group.
    (pandas orders the groups by key; the returned triple does not depend
    on their order.) *)
Definition trade_grouped (df : list TradeRow) : option (list Q) :=
  mapM (total_trade_r df) (remove_dups (trade_id <$> df)).

Definition count_positive (l : list Q) : Z :=
  Z.of_nat (length (filter (fun x => Is_true (Py.Qlt_bool 0 x)) l)).

(** [calculate_real_expectancy(df)]; [has_trade_columns] tells whether the
    frame has the columns [trade_id] and [exit_qty].  The result is
    [(expectancy, win_rate, total_trades)]. *)
Definition calculate_real_expectancy (has_trade_columns : bool)
    (df : list TradeRow) : option (Q * Q * Z) :=
  match df with
  | [] => Some (0, 0, 0%Z)
  | _ :: _ =>
      if negb has_trade_columns
      then
        let rs := r_multiple <$> df in
        Some (mean rs,
              mean ((fun x => if Py.Qlt_bool 0 x then 1 else 0) <$> rs) * 100,
              Z.of_nat (length df))
      else
        totals ← trade_grouped df;
        let total_trades := Z.of_nat (length totals) in
        let winning_trades := count_positive totals in
        win_rate ←
          (if (0 <? total_trades)%Z
           then q ← Py.pydiv (inject_Z winning_trades) (inject_Z total_trades);
                Some (q * 100)
           else Some 0);
        let expectancy := if (0 <? total_trades)%Z then mean totals else 0 in
        Some (expectancy, win_rate, total_trades)
  end.

(** [calculate_tor(portfolio_df, current_1r_unit)] *)
Fixpoint calculate_tor (portfolio_df : list Position) (current_1r_unit : Q)
    : option Q :=
  match portfolio_df with
  | [] => Some 0
  | row :: rest =>
      o ← calculate_dynamic_or (entry_price row) (stop_loss row)
            (quantity row) current_1r_unit;
      s ← calculate_tor rest current_1r_unit;
      Some (o + s)
  end.

(** ** Regime classifier *)

(** What [yf.Ticker(sym).history(period="60d")] gave: an exception, or the
    frame's [Close] column, oldest first (empty when the frame is). *)
Inductive Fetch :=
| FetchRaised (e : string)
| Fetched (closes : list Q).

(** [df['Close'].rolling(window=20).mean().iloc[-1]]: [NaN] ([None]) with
    fewer than 20 rows. *)
Definition sma20_last (closes : list Q) : option Q :=
  if (length closes <? 20)%nat then None
  else Some (mean (drop (length closes - 20) closes)).

(** [curr > sma]; a comparison with [NaN] is [False]. *)
Definition above (curr : Q) (sma : option Q) : bool :=
  match sma with Some s => Py.Qlt_bool s curr | None => false end.

(** [curr < sma]. *)
Definition below (curr : Q) (sma : option Q) : bool :=
  match sma with Some s => Py.Qlt_bool curr s | None => false end.

Definition colors : gmap string string :=
  <["GREEN" := "#00c864"]>
    (<["YELLOW" := "#ffaa00"]> (<["RED" := "#ff3232"]> ∅)).

(** [suggest_market_regime(checklist_count, recent_win_rate)] (the second
    definition of that name, the one in force), with the two histories it
    fetches.  The result is [(regime, color, reason)]. *)
Definition suggest_market_regime (checklist_count : Z) (recent_win_rate : Q)
    (spy rsp : Fetch) : string * string * string :=
  match spy, rsp with
  | FetchRaised e, _ => ("ERROR", "gray", "분석 실패: " +:+ e)
  | Fetched _, FetchRaised e => ("ERROR", "gray", "분석 실패: " +:+ e)
  | Fetched spy_close, Fetched rsp_close =>
      match last spy_close, last rsp_close with
      | Some spy_curr, Some rsp_curr =>
          let spy_sma := sma20_last spy_close in
          let rsp_sma := sma20_last rsp_close in
          let base_regime :=
            if above spy_curr spy_sma && above rsp_curr rsp_sma then "GREEN"
            else if below spy_curr spy_sma && below rsp_curr rsp_sma then "RED"
            else "YELLOW" in
          if Py.Qlt_bool recent_win_rate 20
          then ("RED", "#ff3232", "⚠️ 최근 승률 저조 (Survival Mode)")
          else
            let n := pretty checklist_count in
            let '(final_regime, reason) :=
              if (3 <=? checklist_count)%Z then
                if String.eqb base_regime "GREEN"
                then ("YELLOW",
                      "지수는 높으나 시장 행동 불안정 (" +:+ n +:+ "개 경고)")
                else if String.eqb base_regime "YELLOW"
                then ("RED", "시장 행동 위험 수준 (" +:+ n +:+ "개 경고)")
                else (base_regime,
                      "지수 하락 + 시장 행동 악화 (" +:+ n +:+ "개 경고)")
              else (base_regime, "지수 및 추세 양호") in
            (final_regime, default "gray" (colors !! final_regime), reason)
      | _, _ => ("UNKNOWN", "gray", "데이터 조회 실패")
      end
  end.

(** ** Position sizer (section 6-1 of the source) *)

Record Sizing := {
  stop_dist : Q;
  stop_dist_pct : Q;
  theoretical_shares : Z;
  theoretical_mag : Q;
  theoretical_mag_pct : Q;
  max_cap_dollars : Q;
  max_cap_shares : Z;
  final_shares : Z;
  final_mag : Q;
  final_mag_pct : Q;
  final_or_r : Q;
  cap_applied : bool;
  remaining_tor : Q;
  tor_exceeded : bool;
  targets : list (string * Q)
}.

(** The three branches of the sizing block: the computed sizing
    ([st.success]), the rejection of a stop at or above the entry
    ([st.error]), and the request for input ([st.info]). *)
Inductive SizingOutcome :=
| Sized (s : Sizing)
| InvalidInput
| Prompt.

(** The sizing block, as a function of the regime chosen in the sidebar,
    the stored equity, the current TOR and the two price inputs. *)
Definition position_sizing (regime : string) (total_equity_ current_tor : Q)
    (entry_p stop_p : Q) : option SizingOutcome :=
  let regime_params := get_regime_params regime in
  let tor_limit_ := tor_limit regime_params in
  let r_multiplier_ := r_multiplier regime_params in
  let active_r_pct := BASE_1R_PCT * r_multiplier_ in
  let active_1r_unit := total_equity_ * active_r_pct in
  if Py.Qlt_bool stop_p entry_p && Py.Qlt_bool 0 entry_p then
    let stop_dist_ := entry_p - stop_p in
    q1 ← Py.pydiv stop_dist_ entry_p;
    let stop_dist_pct_ := q1 * 100 in
    q2 ← Py.pydiv active_1r_unit stop_dist_;
    let theoretical_shares_ := Py.int q2 in
    let theoretical_mag_ := inject_Z theoretical_shares_ * entry_p in
    q3 ← Py.pydiv theoretical_mag_ total_equity_;
    let theoretical_mag_pct_ := q3 * 100 in
    let max_cap_dollars_ := total_equity_ * MAX_POS_SIZE_PCT in
    q4 ← Py.pydiv max_cap_dollars_ entry_p;
    let max_cap_shares_ := Py.int q4 in
    let final_shares_ := Py.min theoretical_shares_ max_cap_shares_ in
    let final_mag_ := inject_Z final_shares_ * entry_p in
    q5 ← Py.pydiv final_mag_ total_equity_;
    let final_mag_pct_ := q5 * 100 in
    final_or_r_ ← Py.pydiv (inject_Z final_shares_ * stop_dist_) active_1r_unit;
    let remaining_tor_ := tor_limit_ - current_tor in
    Some (Sized
      {| stop_dist := stop_dist_; stop_dist_pct := stop_dist_pct_;
         theoretical_shares := theoretical_shares_;
         theoretical_mag := theoretical_mag_;
         theoretical_mag_pct := theoretical_mag_pct_;
         max_cap_dollars := max_cap_dollars_;
         max_cap_shares := max_cap_shares_;
         final_shares := final_shares_;
         final_mag := final_mag_; final_mag_pct := final_mag_pct_;
         final_or_r := final_or_r_;
         cap_applied := (max_cap_shares_ <? theoretical_shares_)%Z;
         remaining_tor := remaining_tor_;
         tor_exceeded := Py.Qlt_bool remaining_tor_ final_or_r_;
         targets := [("1R", entry_p + stop_dist_);
                     ("2R", entry_p + stop_dist_ * 2);
                     ("3R", entry_p + stop_dist_ * 3)] |})
  else if Qle_bool entry_p stop_p && negb (Qeq_bool entry_p 0) then
    Some InvalidInput
  else Some Prompt.

(** ** Derived quantities used in the statements *)

(** The R multiple an exit records, from the prices and the risk unit. *)
Definition recorded_r (exit_price entry_p r_unit : Q) : Q :=
  if Qeq_bool r_unit 0 then 0 else (exit_price - entry_p) / r_unit.

(** The risk unit of a position: the distance from the entry price to the
    initial stop, or to the current stop in a row older than the column. *)
Definition risk_unit (p : Position) : Q :=
  Py.abs (entry_price p - default (stop_loss p) (initial_stop_loss p)).

(** The currency profit of one ledger row. *)
Definition row_pnl (r : TradeRow) : Q :=
  (tr_exit_price r - tr_entry_price r) * inject_Z (exit_qty r).

(** The total exit profit of a list of ledger rows. *)
Definition total_pnl (g : list TradeRow) : Q := Qsum (row_pnl <$> g).

(** The regime of a classifier result. *)
Definition regime_of (r : string * string * string) : string := r.1.1.

(** ** Sample data *)

(** A portfolio of two positions, used to run the operations. *)
Definition aapl : Position :=
  {| entry_price := 100; stop_loss := 95; quantity := 20;
     sector := "Tech/AI"; entry_date := "2024-01-02";
     breakdown_low := None; initial_stop_loss := Some 95 |}.

Definition msft : Position :=
  {| entry_price := 400; stop_loss := 380; quantity := 10;
     sector := "IT"; entry_date := "2024-01-03";
     breakdown_low := None; initial_stop_loss := Some 380 |}.

Definition db0 : DB :=
  {| portfolio := <["AAPL" := aapl]> (<["MSFT" := msft]> ∅);
     trade_history := [];
     account_config :=
       {| total_equity := 10000; last_updated := "2024-01-01 09:00:00" |} |}.

(** A position whose initial stop is its entry price. *)
Definition flat : Position :=
  {| entry_price := 50; stop_loss := 48; quantity := 5;
     sector := "Energy"; entry_date := "2024-01-04";
     breakdown_low := None; initial_stop_loss := Some 50 |}.

Definition db_flat : DB := set_portfolio (insert "XOM" flat) db0.

(** The ledger of one position of 20 shares, entry 100 and initial stop 95,
    sold in two parts, next to a row of another trade. *)
Definition ledger2 : list TradeRow :=
  [ {| tr_ticker := "AAPL(P)"; tr_entry_date := "2024-01-02";
       tr_exit_date := "2024-02-01"; tr_entry_price := 100;
       tr_exit_price := 110; r_multiple := 2;
       trade_id := "AAPL_2024-01-02"; exit_qty := 5 |};
    {| tr_ticker := "MSFT"; tr_entry_date := "2024-01-03";
       tr_exit_date := "2024-02-10"; tr_entry_price := 400;
       tr_exit_price := 380; r_multiple := -(1);
       trade_id := "MSFT_2024-01-03"; exit_qty := 10 |};
    {| tr_ticker := "AAPL"; tr_entry_date := "2024-01-02";
       tr_exit_date := "2024-03-01"; tr_entry_price := 100;
       tr_exit_price := 120; r_multiple := 4;
       trade_id := "AAPL_2024-01-02"; exit_qty := 15 |} ].

(** ** Equity account *)

(** [get_total_equity()] *)
Definition get_total_equity (db : DB) : Q := total_equity (account_config db).

(** [update_total_equity(new_equity)] *)
Definition update_total_equity (new_equity : Q) (now : string) (db : DB)
    : DB :=
  {| portfolio := portfolio db;
     trade_history := trade_history db;
     account_config :=
       {| total_equity := new_equity; last_updated := now |} |}.

(** [adjust_equity_by_amount(amount)] *)
Definition adjust_equity_by_amount (amount : Q) (now : string) (db : DB)
    : DB :=
  credit_equity amount now db.

(** ** Recent performance *)

(** [get_recent_performance(limit)].  [ordered] is the column [r_multiple]
    of [trade_history] in the order of the query ([exit_date] descending),
    before its [LIMIT].  The mean of an empty series is [NaN], which no
    rational stands for: [None]. *)
Definition get_recent_performance (limit : nat) (ordered : list Q)
    : option Q :=
  let df_h := take limit ordered in
  if (length df_h <? limit)%nat then Some 100
  else
    match df_h with
    | [] => None
    | _ :: _ =>
        Some (mean ((fun x => if Py.Qlt_bool 0 x then 1 else 0) <$> df_h)
              * 100)
    end.

(** ** Portfolio monitor (section 7-2 of the source) *)

(** Truth value of a price that may be [None]: [None] and [0.0] are
    falsy. *)
Definition truthy (x : option Q) : bool :=
  match x with
  | Some v => negb (Qeq_bool v 0)
  | None => false
  end.

Definition set_breakdown_low (b : option Q) (p : Position) : Position :=
  {| entry_price := entry_price p; stop_loss := stop_loss p;
     quantity := quantity p; sector := sector p;
     entry_date := entry_date p; breakdown_low := b;
     initial_stop_loss := initial_stop_loss p |}.

(** The body of the loop over the portfolio frame for one [row] of it:
    [cp] is what [get_current_price] gave, [hist] the [(Close, Low)] pairs
    of the 20-day history, oldest first, and [trading_days_count] what
    [check_5day_rule] gave.  The result is the alert text of the row and
    the tables after the updates of [breakdown_low]. *)
Definition monitor_row (ticker : string) (row : Position) (cp : option Q)
    (hist : list (Q * Q)) (trading_days_count : Z) (db : DB)
    : string * DB :=
  let sma20 := sma20_last (fst <$> hist) in
  let current_low := snd <$> last hist in
  let r_dist := Py.abs (entry_price row - stop_loss row) in
  let target_1r := entry_price row + r_dist in
  let alert_msg :=
    if truthy cp && Qle_bool target_1r (default 0 cp)
    then "⚠️ +1R Reached: Move Stop to BE" else "Hold" in
  let '(alert_msg, db) :=
    if truthy cp && truthy sma20 then
      if Py.Qlt_bool (default 0 cp) (default 0 sma20) then
        match breakdown_low row with
        | None =>
            (alert_msg,
             set_portfolio
               (alter (set_breakdown_low current_low) ticker) db)
        | Some bl =>
            if Py.Qlt_bool (default 0 cp) bl
            then (alert_msg +:+ " | ‼️ 기준 저가 붕괴! 즉시 청산 검토.", db)
            else (alert_msg, db)
        end
      else
        match breakdown_low row with
        | Some _ =>
            (alert_msg,
             set_portfolio (alter (set_breakdown_low None) ticker) db)
        | None => (alert_msg, db)
        end
    else (alert_msg, db) in
  let alert_msg :=
    if (6 <=? trading_days_count)%Z
    then alert_msg +:+ " | ⏳ 5-Day Rule: Partial Exit (D5 Passed)"
    else alert_msg in
  (alert_msg, db).

(** ** The sidebar: from the ledger to the suggested regime *)

(** Lines 726 and 739 of the sidebar: the win rate of the last five trades
    is handed to the classifier. *)
Definition sidebar_regime (checklist_count : Z) (ordered : list Q)
    (spy rsp : Fetch) : option (string * string * string) :=
  recent_win_rate ← get_recent_performance 5 ordered;
  Some (suggest_market_regime checklist_count recent_win_rate spy rsp).

(** ** Derived quantities of the further statements *)

(** The open risk of one row, as [calculate_tor] adds it up. *)
Definition row_or (current_1r_unit : Q) (row : Position) : Q :=
  default 0 (calculate_dynamic_or (entry_price row) (stop_loss row)
               (quantity row) current_1r_unit).

(** One step down: GREEN to YELLOW, YELLOW to RED. *)
Definition downgrade (regime : string) : string :=
  if String.eqb regime "GREEN" then "YELLOW"
  else if String.eqb regime "YELLOW" then "RED"
  else regime.

(** The total of a trade that has one row. *)
Definition single_total (r : TradeRow) : Q :=
  r_multiple r * (inject_Z (exit_qty r) / inject_Z (exit_qty r)) + 0.

(** Every open position has a positive quantity. *)
Definition quantities_positive (db : DB) : Prop :=
  forall t p, portfolio db !! t = Some p -> (0 < quantity p)%Z.

(** * Properties *)

(** ** Running the definitions *)

Example get_regime_params_yellow :
  get_regime_params "YELLOW" = YELLOW_params.
Proof. vm_compute. reflexivity. Qed.

(** The running example of the specification. *)
Example sizing_example_shares :
  (s ← position_sizing "GREEN" 10000 0 100 95;
   match s with Sized z => Some (final_shares z) | _ => None end) = Some 20%Z.
Proof. vm_compute. reflexivity. Qed.

(** ** Arithmetic of the Python operations *)

Section PyFacts.

Lemma Qlt_bool_iff (a b : Q) : Py.Qlt_bool a b = true <-> a < b.
Proof.
  unfold Py.Qlt_bool. rewrite negb_true_iff.
  destruct (Qle_bool b a) eqn:E.
  - apply Qle_bool_iff in E. split; [discriminate | intros H; lra].
  - split; [intros _ | reflexivity].
    destruct (Qlt_le_dec a b) as [H | H]; [exact H |].
    apply Qle_bool_iff in H. congruence.
Qed.

Lemma Qlt_bool_false_iff (a b : Q) : Py.Qlt_bool a b = false <-> b <= a.
Proof.
  unfold Py.Qlt_bool. rewrite negb_false_iff. apply Qle_bool_iff.
Qed.

Lemma Qle_bool_false_iff (a b : Q) : Qle_bool a b = false <-> b < a.
Proof.
  rewrite <- Qlt_bool_iff. unfold Py.Qlt_bool.
  destruct (Qle_bool a b); simpl; split; congruence.
Qed.

Lemma pydiv_Some (a b : Q) : ~ b == 0 -> Py.pydiv a b = Some (a / b).
Proof.
  intros Hb. unfold Py.pydiv.
  destruct (Qeq_bool b 0) eqn:E; [| reflexivity].
  apply Qeq_bool_iff in E. contradiction.
Qed.

Lemma pydiv_None (a b : Q) : b == 0 -> Py.pydiv a b = None.
Proof.
  intros Hb. unfold Py.pydiv. apply Qeq_bool_iff in Hb. now rewrite Hb.
Qed.



Lemma inject_Z_nonneg (z : Z) : (0 <= z)%Z -> 0 <= inject_Z z.
Proof. intros H. rewrite Zle_Qle in H. exact H. Qed.

Lemma Qdiv_le_compat (a b u : Q) : 0 < u -> a <= b -> a / u <= b / u.
Proof.
  intros Hu Hab. unfold Qdiv. apply Qmult_le_compat_r; [exact Hab |].
  apply Qlt_le_weak, Qinv_lt_0_compat, Hu.
Qed.

Lemma inject_Z_pos (z : Z) : (0 < z)%Z -> 0 < inject_Z z.
Proof. intros H. rewrite Zlt_Qlt in H. exact H. Qed.

End PyFacts.

(** ** Open risk *)

Lemma dynamic_or_at_or_above (e s : Q) (q : Z) (u : Q) :
  e <= s -> calculate_dynamic_or e s q u = Some 0.
Proof.
  intros H. unfold calculate_dynamic_or.
  apply Qle_bool_iff in H. now rewrite H.
Qed.

Lemma dynamic_or_below (e s : Q) (q : Z) (u : Q) :
  0 < u -> s < e ->
  calculate_dynamic_or e s q u = Some ((e - s) * inject_Z q / u).
Proof.
  intros Hu H. unfold calculate_dynamic_or.
  apply Qle_bool_false_iff in H. rewrite H.
  pose proof (proj2 (Qlt_bool_iff 0 u) Hu) as Hb. rewrite Hb.
  apply pydiv_Some. lra.
Qed.

Lemma open_risk_nonneg (e s : Q) (q : Z) (u : Q) :
  0 < u -> s <= e -> (0 <= q)%Z -> 0 <= (e - s) * inject_Z q / u.
Proof.
  intros Hu Hs Hq.
  apply Qle_shift_div_l; [exact Hu |].
  pose proof (inject_Z_nonneg q Hq).
  nra.
Qed.

(** C4. With a positive 1R unit, the open risk of a position is 0 when the
    stop is at or above the entry price and
    [(entry_price - stop_loss) * quantity / active_1R_unit] otherwise; for a
    position (whose quantity is not negative) it does not increase when
    the stop is raised. *)
Theorem calculate_dynamic_or_spec (entry_price stop_loss stop_loss' : Q)
    (quantity : Z) (active_1R_unit : Q) :
  0 < active_1R_unit ->
  (entry_price <= stop_loss ->
     calculate_dynamic_or entry_price stop_loss quantity active_1R_unit
     = Some 0) /\
  (stop_loss < entry_price ->
     calculate_dynamic_or entry_price stop_loss quantity active_1R_unit
     = Some ((entry_price - stop_loss) * inject_Z quantity / active_1R_unit)) /\
  ((0 <= quantity)%Z -> stop_loss <= stop_loss' ->
     exists v v',
       calculate_dynamic_or entry_price stop_loss quantity active_1R_unit
       = Some v /\
       calculate_dynamic_or entry_price stop_loss' quantity active_1R_unit
       = Some v' /\
       v' <= v).
Proof.
  intros Hu. split; [| split].
  - apply dynamic_or_at_or_above.
  - now apply dynamic_or_below.
  - intros Hq Hs.
    destruct (Qlt_le_dec stop_loss entry_price) as [H1 | H1];
      destruct (Qlt_le_dec stop_loss' entry_price) as [H2 | H2].
    + eexists _, _. split; [now apply dynamic_or_below |].
      split; [now apply dynamic_or_below |].
      pose proof (inject_Z_nonneg quantity Hq).
      apply Qdiv_le_compat; [exact Hu | nra].
    + eexists _, _. split; [now apply dynamic_or_below |].
      split; [now apply dynamic_or_at_or_above |].
      apply open_risk_nonneg; [exact Hu | lra | exact Hq].
    + lra.
    + eexists _, _. split; [now apply dynamic_or_at_or_above |].
      split; [now apply dynamic_or_at_or_above | lra].
Qed.

Lemma calculate_dynamic_or_spec_witness :
  0 < 100 /\
  calculate_dynamic_or 100 100 20 100 = Some 0 /\
  calculate_dynamic_or 100 95 20 100
  = Some ((100 - 95) * inject_Z 20 / 100) /\
  exists v v',
    calculate_dynamic_or 100 95 20 100 = Some v /\
    calculate_dynamic_or 100 98 20 100 = Some v' /\
    v' <= v.
Proof.
  split; [reflexivity |].
  split; [apply (calculate_dynamic_or_spec 100 100 100 20 100); lra |].
  split; [apply (calculate_dynamic_or_spec 100 95 98 20 100); lra |].
  apply (calculate_dynamic_or_spec 100 95 98 20 100); [lra | lia | lra].
Defined.

Lemma or_r_guarded (e s : Q) (q : Z) (u : Q) :
  u <= 0 -> calculate_or_r e s q u = Some 0.
Proof.
  intros Hu. unfold calculate_or_r.
  apply Qlt_bool_false_iff in Hu. now rewrite Hu.
Qed.

Lemma dynamic_or_guarded (e s : Q) (q : Z) (u : Q) :
  u <= 0 -> calculate_dynamic_or e s q u = Some 0.
Proof.
  intros Hu. unfold calculate_dynamic_or.
  apply Qlt_bool_false_iff in Hu. rewrite Hu.
  now destruct (Qle_bool e s).
Qed.

Lemma or_r_total (e s : Q) (q : Z) (u : Q) :
  is_Some (calculate_or_r e s q u).
Proof.
  unfold calculate_or_r. destruct (Py.Qlt_bool 0 u) eqn:E; [| eauto].
  apply Qlt_bool_iff in E. rewrite pydiv_Some; [eauto | lra].
Qed.

Lemma dynamic_or_total (e s : Q) (q : Z) (u : Q) :
  is_Some (calculate_dynamic_or e s q u).
Proof.
  unfold calculate_dynamic_or.
  destruct (Qle_bool e s); [eauto |].
  destruct (Py.Qlt_bool 0 u) eqn:E; [| eauto].
  apply Qlt_bool_iff in E. rewrite pydiv_Some; [eauto | lra].
Qed.

(** C10. With a 1R unit that is zero or negative both open-risk functions
    return 0 and do not divide; and for every input the division they
    contain is guarded, so neither raises. *)
Theorem open_risk_division_guarded (entry_price stop_loss : Q)
    (quantity : Z) (current_1r_unit : Q) :
  (current_1r_unit <= 0 ->
     calculate_dynamic_or entry_price stop_loss quantity current_1r_unit
     = Some 0 /\
     calculate_or_r entry_price stop_loss quantity current_1r_unit
     = Some 0) /\
  is_Some (calculate_dynamic_or entry_price stop_loss quantity
             current_1r_unit) /\
  is_Some (calculate_or_r entry_price stop_loss quantity current_1r_unit).
Proof.
  split; [intros Hu; split |].
  - now apply dynamic_or_guarded.
  - now apply or_r_guarded.
  - split; [apply dynamic_or_total | apply or_r_total].
Qed.

Lemma open_risk_division_guarded_witness :
  (0 <= 0 /\
   calculate_dynamic_or 100 95 20 0 = Some 0 /\
   calculate_or_r 100 95 20 0 = Some 0) /\
  (- (50) <= 0 /\
   calculate_dynamic_or 100 95 20 (- (50)) = Some 0 /\
   calculate_or_r 100 95 20 (- (50)) = Some 0).
Proof.
  split.
  - split; [lra |]. apply (open_risk_division_guarded 100 95 20 0). lra.
  - split; [lra |]. apply (open_risk_division_guarded 100 95 20 (- (50))). lra.
Defined.

(** ** Regime parameters *)

(** C9. A regime name other than GREEN, YELLOW and RED (UNKNOWN and ERROR
    among them) gets the GREEN parameters, [tor_limit = 5.0] and
    [r_multiplier = 1.0]: the lookup neither rejects it nor has a value of
    its own for it. *)
Theorem get_regime_params_fallback (regime : string) :
  regime <> "GREEN" -> regime <> "YELLOW" -> regime <> "RED" ->
  get_regime_params regime = get_regime_params "GREEN" /\
  tor_limit (get_regime_params regime) = 5 /\
  r_multiplier (get_regime_params regime) = 1.
Proof.
  intros Hg Hy Hr.
  assert (H : get_regime_params regime = GREEN_params).
  { unfold get_regime_params, params.
    rewrite !lookup_insert_ne by congruence.
    now rewrite lookup_empty. }
  rewrite H. repeat split.
Qed.

Lemma get_regime_params_fallback_witness :
  (get_regime_params "UNKNOWN" = get_regime_params "GREEN" /\
   tor_limit (get_regime_params "UNKNOWN") = 5 /\
   r_multiplier (get_regime_params "UNKNOWN") = 1) /\
  (get_regime_params "ERROR" = get_regime_params "GREEN" /\
   tor_limit (get_regime_params "ERROR") = 5 /\
   r_multiplier (get_regime_params "ERROR") = 1).
Proof.
  split.
  - apply (get_regime_params_fallback "UNKNOWN"); discriminate.
  - apply (get_regime_params_fallback "ERROR"); discriminate.
Defined.

(** ** Stop updates *)

Lemma update_stop_loss_lookup (ticker : string) (s : Q) (db : DB)
    (t : string) :
  portfolio (update_stop_loss ticker s db) !! t
  = if decide (ticker = t) then set_stop_loss s <$> portfolio db !! t
    else portfolio db !! t.
Proof.
  unfold update_stop_loss, set_portfolio. simpl.
  rewrite lookup_alter. case_decide; [subst |]; reflexivity.
Qed.

(** C8. [update_stop_loss] changes the [stop_loss] of the row of its ticker
    and nothing else: the row keeps its [initial_stop_loss],
    [entry_price], [quantity], [sector], [entry_date] and [breakdown_low],
    every other position is as it was, no position appears or
    disappears, and the ledger and the account are not touched. *)
Theorem update_stop_loss_frame (ticker : string) (new_stop : Q) (db : DB)
    (p : Position) :
  portfolio db !! ticker = Some p ->
  let db' := update_stop_loss ticker new_stop db in
  (exists p',
     portfolio db' !! ticker = Some p' /\
     stop_loss p' = new_stop /\
     initial_stop_loss p' = initial_stop_loss p /\
     entry_price p' = entry_price p /\
     quantity p' = quantity p /\
     sector p' = sector p /\
     entry_date p' = entry_date p /\
     breakdown_low p' = breakdown_low p) /\
  (forall other, other <> ticker ->
     portfolio db' !! other = portfolio db !! other) /\
  trade_history db' = trade_history db /\
  account_config db' = account_config db.
Proof.
  intros Hp db'. subst db'. split; [| split; [| split]].
  - exists (set_stop_loss new_stop p).
    rewrite update_stop_loss_lookup, decide_True by reflexivity.
    rewrite Hp. simpl. repeat split.
  - intros other Hne.
    rewrite update_stop_loss_lookup, decide_False by congruence.
    reflexivity.
  - reflexivity.
  - reflexivity.
Qed.

Lemma db0_aapl : portfolio db0 !! "AAPL" = Some aapl.
Proof. reflexivity. Qed.

Lemma db0_msft : portfolio db0 !! "MSFT" = Some msft.
Proof. reflexivity. Qed.

Lemma update_stop_loss_frame_witness :
  let db' := update_stop_loss "AAPL" 100 db0 in
  (exists p',
     portfolio db' !! "AAPL" = Some p' /\
     stop_loss p' = 100 /\
     initial_stop_loss p' = initial_stop_loss aapl /\
     entry_price p' = entry_price aapl /\
     quantity p' = quantity aapl /\
     sector p' = sector aapl /\
     entry_date p' = entry_date aapl /\
     breakdown_low p' = breakdown_low aapl) /\
  (forall other, other <> "AAPL" ->
     portfolio db' !! other = portfolio db0 !! other) /\
  trade_history db' = trade_history db0 /\
  account_config db' = account_config db0.
Proof.
  apply (update_stop_loss_frame "AAPL" 100 db0 aapl). reflexivity.
Defined.

(** ** Regime classifier *)

(** C5. Whatever the checklist count and whatever the two index histories
    (hence whatever the two comparisons with the 20-day average give), a
    recent win rate below 20 makes the classifier answer RED. *)
Theorem low_win_rate_forces_red (checklist_count : Z) (recent_win_rate : Q)
    (spy_close rsp_close : list Q) :
  spy_close <> [] -> rsp_close <> [] ->
  recent_win_rate < 20 ->
  regime_of (suggest_market_regime checklist_count recent_win_rate
               (Fetched spy_close) (Fetched rsp_close)) = "RED".
Proof.
  intros Hs Hr Hw. unfold suggest_market_regime.
  destruct (last spy_close) as [spy_curr |] eqn:Es;
    [| apply last_None in Es; contradiction].
  destruct (last rsp_close) as [rsp_curr |] eqn:Er;
    [| apply last_None in Er; contradiction].
  apply Qlt_bool_iff in Hw. rewrite Hw. reflexivity.
Qed.

Lemma low_win_rate_forces_red_witness :
  regime_of (suggest_market_regime 0 10
               (Fetched (repeat 100 19 ++ [101]))
               (Fetched (repeat 50 19 ++ [51]))) = "RED".
Proof.
  apply (low_win_rate_forces_red 0 10); [discriminate | discriminate | lra].
Defined.

(** The examples of the specification: both indexes above their average,
    no warning, a full win rate; then three warnings. *)
Example regime_green :
  regime_of (suggest_market_regime 0 100
               (Fetched (repeat 100 19 ++ [101]))
               (Fetched (repeat 50 19 ++ [51]))) = "GREEN".
Proof. vm_compute. reflexivity. Qed.

Example regime_yellow_by_checklist :
  regime_of (suggest_market_regime 3 100
               (Fetched (repeat 100 19 ++ [101]))
               (Fetched (repeat 50 19 ++ [51]))) = "YELLOW".
Proof. vm_compute. reflexivity. Qed.

(** When a history is empty or the fetch raised, the classifier returns
    before it looks at the win rate. *)
Example regime_unknown_despite_low_win_rate :
  regime_of (suggest_market_regime 0 10 (Fetched []) (Fetched [100]))
  = "UNKNOWN".
Proof. reflexivity. Qed.

(** ** Additive fills *)




(** The merged average of the running example: 20 shares at 100 and 20 at
    110 give 105. *)
Example add_position_merge_example :
  (entry_price <$>
     portfolio (add_position "aapl" 110 105 20 "Tech/AI" "2024-02-01" db0)
       !! "AAPL") = Some (4200 # 40).
Proof. vm_compute. reflexivity. Qed.

(** A fill that brings the total quantity to zero makes the average raise
    [ZeroDivisionError]; the handler leaves the tables as they were. *)
Example add_position_zero_total :
  add_position "AAPL" 110 105 (-20) "Tech/AI" "2024-02-01" db0 = db0.
Proof. reflexivity. Qed.

(** ** Exits *)

Lemma clamp_min (current_qty qty_to_close : Z) :
  (if (current_qty <? qty_to_close)%Z then current_qty else qty_to_close)
  = Z.min qty_to_close current_qty.
Proof. destruct (Z.ltb_spec current_qty qty_to_close); lia. Qed.

(** What [close_position] does to an open position, in one equation. *)
Lemma close_position_open (ticker : string) (exit_price : Q)
    (qty_to_close : Z) (today now : string) (db : DB) (p : Position) :
  portfolio db !! ticker = Some p ->
  let closed := Z.min qty_to_close (quantity p) in
  let remaining := (quantity p - closed)%Z in
  close_position ticker exit_price qty_to_close today now db
  = Some
      {| portfolio :=
           if (0 <? remaining)%Z
           then alter (set_quantity remaining) ticker (portfolio db)
           else delete ticker (portfolio db);
         trade_history :=
           trade_history db ++
           [{| tr_ticker := ticker; tr_entry_date := entry_date p;
               tr_exit_date := today; tr_entry_price := entry_price p;
               tr_exit_price := exit_price;
               r_multiple :=
                 recorded_r exit_price (entry_price p) (risk_unit p);
               trade_id := make_trade_id ticker (entry_date p);
               exit_qty := closed |}];
         account_config :=
           {| total_equity :=
                total_equity (account_config db)
                + (exit_price - entry_price p) * inject_Z closed;
              last_updated := now |} |}.
Proof.
  intros Hp closed remaining. subst closed remaining.
  unfold close_position. rewrite Hp. rewrite clamp_min.
  fold (risk_unit p). unfold recorded_r.
  destruct (Qeq_bool (risk_unit p) 0) eqn:E; simpl.
  - destruct (0 <? _)%Z; reflexivity.
  - rewrite pydiv_Some.
    2:{ intros H. apply Qeq_bool_iff in H. congruence. }
    simpl. destruct (0 <? _)%Z; reflexivity.
Qed.


(** What [process_partial_exit] does to an open position, in one
    equation: the quantity is recorded, credited and subtracted as it was
    passed. *)
Lemma process_partial_exit_open (ticker : string) (exit_qty_ : Z)
    (exit_px entry_px current_1r_unit : Q) (today now : string) (db : DB)
    (p : Position) :
  portfolio db !! ticker = Some p ->
  let r_unit_fixed :=
    Py.abs (entry_px - default (stop_loss p) (initial_stop_loss p)) in
  let remaining := (quantity p - exit_qty_)%Z in
  process_partial_exit ticker exit_qty_ exit_px entry_px current_1r_unit
    today now db
  = Some
      {| portfolio :=
           if (remaining <=? 0)%Z
           then delete ticker (portfolio db)
           else <[ticker := set_quantity remaining p]> (portfolio db);
         trade_history :=
           trade_history db ++
           [{| tr_ticker := ticker +:+ "(P)"; tr_entry_date := entry_date p;
               tr_exit_date := today; tr_entry_price := entry_px;
               tr_exit_price := exit_px;
               r_multiple := recorded_r exit_px entry_px r_unit_fixed;
               trade_id := make_trade_id ticker (entry_date p);
               exit_qty := exit_qty_ |}];
         account_config :=
           {| total_equity :=
                total_equity (account_config db)
                + (exit_px - entry_px) * inject_Z exit_qty_;
              last_updated := now |} |}.
Proof.
  intros Hp r_unit_fixed remaining.
  unfold process_partial_exit. rewrite Hp. fold r_unit_fixed.
  assert (Hr : (if Py.Qlt_bool 0 r_unit_fixed
                then Py.pydiv (exit_px - entry_px) r_unit_fixed
                else Some 0)
               = Some (recorded_r exit_px entry_px r_unit_fixed)).
  { unfold recorded_r.
    pose proof (Qabs_nonneg
                  (entry_px - default (stop_loss p) (initial_stop_loss p)))
      as Hnn.
    fold (Py.abs (entry_px - default (stop_loss p) (initial_stop_loss p)))
      in Hnn.
    fold r_unit_fixed in Hnn.
    destruct (Py.Qlt_bool 0 r_unit_fixed) eqn:E.
    - apply Qlt_bool_iff in E.
      rewrite pydiv_Some by lra.
      destruct (Qeq_bool r_unit_fixed 0) eqn:E0; [| reflexivity].
      apply Qeq_bool_iff in E0. lra.
    - apply Qlt_bool_false_iff in E.
      assert (E0 : r_unit_fixed == 0) by lra.
      apply Qeq_bool_iff in E0. now rewrite E0. }
  rewrite Hr. simpl.
  rewrite lookup_alter, decide_True, Hp by reflexivity. simpl.
  fold remaining.
  destruct (remaining <=? 0)%Z.
  - f_equal. unfold set_portfolio. simpl. f_equal.
    apply map_eq. intros k. destruct (decide (ticker = k)) as [-> | Hne].
    + now rewrite !lookup_delete_eq.
    + now rewrite !lookup_delete_ne, lookup_alter_ne by assumption.
  - f_equal. unfold set_portfolio. simpl. f_equal.
    apply map_eq. intros k. destruct (decide (ticker = k)) as [-> | Hne].
    + now rewrite lookup_alter, decide_True, lookup_insert_eq, Hp.
    + now rewrite lookup_alter_ne, lookup_insert_ne by assumption.
Qed.

Lemma recorded_r_nonzero (x e u : Q) :
  ~ u == 0 -> recorded_r x e u = (x - e) / u.
Proof.
  intros Hu. unfold recorded_r.
  destruct (Qeq_bool u 0) eqn:E; [| reflexivity].
  apply Qeq_bool_iff in E. contradiction.
Qed.

Lemma recorded_r_zero (x e u : Q) : u == 0 -> recorded_r x e u = 0.
Proof.
  intros Hu. unfold recorded_r. apply Qeq_bool_iff in Hu. now rewrite Hu.
Qed.

Lemma risk_unit_initial (p : Position) (s : Q) :
  initial_stop_loss p = Some s -> risk_unit p = Qabs (entry_price p - s).
Proof. intros H. unfold risk_unit. now rewrite H. Qed.

(** C7. An exit on an open position with an initial stop records
    [(exit_price - entry_price) / |entry_price - initial_stop_loss|] as
    its R multiple, and 0 when that distance is 0, without failing; this
    holds for a close and for a partial exit (which is passed the entry
    price of the row).  At exit 110, entry 100 and initial stop 95 the
    close records 2. *)
Theorem exit_records_r_multiple (ticker : string) (exit_price : Q)
    (qty : Z) (current_1r_unit : Q) (today now : string) (db : DB)
    (p : Position) (s : Q) :
  portfolio db !! ticker = Some p ->
  initial_stop_loss p = Some s ->
  let denominator := Qabs (entry_price p - s) in
  (exists db' row,
     close_position ticker exit_price qty today now db = Some db' /\
     trade_history db' = trade_history db ++ [row] /\
     (~ denominator == 0 ->
      r_multiple row == (exit_price - entry_price p) / denominator) /\
     (denominator == 0 -> r_multiple row == 0) /\
     (entry_price p == 100 -> s == 95 -> exit_price == 110 ->
      r_multiple row == 2)) /\
  (exists db' row,
     process_partial_exit ticker qty exit_price (entry_price p)
       current_1r_unit today now db = Some db' /\
     trade_history db' = trade_history db ++ [row] /\
     (~ denominator == 0 ->
      r_multiple row == (exit_price - entry_price p) / denominator) /\
     (denominator == 0 -> r_multiple row == 0)).
Proof.
  intros Hp Hs denominator. split.
  - eexists _, _.
    split; [apply (close_position_open _ _ _ _ _ _ _ Hp) |].
    split; [reflexivity |]. simpl.
    rewrite (risk_unit_initial p s Hs). fold denominator.
    split; [| split].
    + intros Hd. now rewrite recorded_r_nonzero.
    + intros Hd. now rewrite recorded_r_zero.
    + intros He H95 Hx.
      assert (Hd : denominator == 5).
      { unfold denominator. rewrite He, H95. reflexivity. }
      rewrite recorded_r_nonzero by (rewrite Hd; discriminate).
      rewrite Hd, He, Hx. reflexivity.
  - eexists _, _.
    split; [apply (process_partial_exit_open _ _ _ _ _ _ _ _ _ Hp) |].
    split; [reflexivity |]. simpl.
    rewrite Hs. simpl. fold denominator.
    split.
    + intros Hd. now rewrite recorded_r_nonzero.
    + intros Hd. now rewrite recorded_r_zero.
Qed.

Lemma exit_records_r_multiple_witness :
  (exists db' row,
     close_position "AAPL" 110 20 "2024-03-01" "2024-03-01 10:00:00" db0
     = Some db' /\
     trade_history db' = trade_history db0 ++ [row] /\
     r_multiple row == (110 - entry_price aapl) / Qabs (entry_price aapl - 95)
     /\
     r_multiple row == 2) /\
  (exists db' row,
     close_position "XOM" 60 5 "2024-03-01" "2024-03-01 10:00:00" db_flat
     = Some db' /\
     trade_history db' = trade_history db_flat ++ [row] /\
     r_multiple row == 0) /\
  (exists db' row,
     process_partial_exit "AAPL" 5 110 (entry_price aapl) 100 "2024-03-01"
       "2024-03-01 10:00:00" db0 = Some db' /\
     trade_history db' = trade_history db0 ++ [row] /\
     r_multiple row == (110 - entry_price aapl) / Qabs (entry_price aapl - 95)).
Proof.
  split; [| split].
  - destruct (exit_records_r_multiple "AAPL" 110 20 100 "2024-03-01"
                "2024-03-01 10:00:00" db0 aapl 95 eq_refl eq_refl)
      as [(db' & row & H1 & H2 & H3 & _ & H5) _].
    exists db', row. split; [exact H1 |]. split; [exact H2 |].
    split; [apply H3; discriminate | apply H5; reflexivity].
  - destruct (exit_records_r_multiple "XOM" 60 5 100 "2024-03-01"
                "2024-03-01 10:00:00" db_flat flat 50 eq_refl eq_refl)
      as [(db' & row & H1 & H2 & _ & H4 & _) _].
    exists db', row. split; [exact H1 |]. split; [exact H2 |].
    apply H4. reflexivity.
  - destruct (exit_records_r_multiple "AAPL" 110 5 100 "2024-03-01"
                "2024-03-01 10:00:00" db0 aapl 95 eq_refl eq_refl)
      as [_ (db' & row & H1 & H2 & H3 & _)].
    exists db', row. split; [exact H1 |]. split; [exact H2 |].
    apply H3. discriminate.
Defined.

(** The equity credit of the running example: closing 20 shares bought at
    100 for 110 adds 200. *)
Example close_position_credit :
  (d ← close_position "AAPL" 110 20 "2024-03-01" "2024-03-01 10:00:00" db0;
   Some (Qred (total_equity (account_config d)))) = Some 10200.
Proof. vm_compute. reflexivity. Qed.

(** The two exits on a quantity above the one held.  Asked to sell 15
    shares of a position of 10, [process_partial_exit] records 15 shares in
    the ledger and credits the account for 15 shares (150), then deletes
    the row; [close_position] on the same input records 10 and credits
    100. *)
Lemma partial_exit_does_not_clamp :
  (exists db' row,
     process_partial_exit "MSFT" 15 410 400 100 "2024-03-01"
       "2024-03-01 10:00:00" db0 = Some db' /\
     trade_history db' = [row] /\
     exit_qty row = 15%Z /\
     exit_qty row <> Z.min 15 (quantity msft) /\
     total_equity (account_config db') == 10000 + 150 /\
     portfolio db' !! "MSFT" = None) /\
  (exists db' row,
     close_position "MSFT" 410 15 "2024-03-01" "2024-03-01 10:00:00" db0
     = Some db' /\
     trade_history db' = [row] /\
     exit_qty row = Z.min 15 (quantity msft) /\
     total_equity (account_config db') == 10000 + 100 /\
     portfolio db' !! "MSFT" = None).
Proof.
  split.
  - eexists _, _.
    split; [apply (process_partial_exit_open _ _ _ _ _ _ _ _ _ db0_msft) |].
    split; [reflexivity |]. split; [reflexivity |].
    split; [discriminate |]. split; reflexivity.
  - eexists _, _.
    split; [apply (close_position_open _ _ _ _ _ _ _ db0_msft) |].
    split; [reflexivity |]. split; [reflexivity |]. split; reflexivity.
Qed.




(** ** Position sizing *)







(** In the witness the theoretical size is 50 shares and the cap 100. *)
Example sizing_yellow_shares :
  (s ← position_sizing "YELLOW" 25000 2 50 (95 # 2);
   match s with
   | Sized z => Some (theoretical_shares z, max_cap_shares z, final_shares z)
   | _ => None
   end) = Some (50%Z, 100%Z, 50%Z).
Proof. vm_compute. reflexivity. Qed.

(** ** Expectancy of one logical trade *)

Lemma weight_in_group (df : list TradeRow) (r : TradeRow) :
  total_qty_per_trade df (trade_id r) <> 0%Z ->
  weight df r
  = Some (inject_Z (exit_qty r)
          / inject_Z (total_qty_per_trade df (trade_id r))).
Proof.
  intros H. unfold weight.
  destruct (Z.eqb_spec (total_qty_per_trade df (trade_id r)) 0);
    [contradiction | reflexivity].
Qed.

(** The sum of the contributions of rows of one trade, all with entry price
    [E] and R multiple [(exit - E) / u], is their profit over
    [u * total quantity]. *)
Lemma sum_contributions_pnl (df : list TradeRow) (tid : string) (E u : Q)
    (g : list TradeRow) :
  ~ u == 0 ->
  total_qty_per_trade df tid <> 0%Z ->
  (forall r, r ∈ g ->
     trade_id r = tid /\
     tr_entry_price r == E /\
     r_multiple r == (tr_exit_price r - E) / u) ->
  exists v,
    sum_contributions df g = Some v /\
    v == total_pnl g / (u * inject_Z (total_qty_per_trade df tid)).
Proof.
  intros Hu Hq. induction g as [| r g IH]; intros Hg.
  - exists 0. split; [reflexivity |].
    unfold total_pnl. simpl. unfold Qdiv. now rewrite Qmult_0_l.
  - destruct (Hg r ltac:(left)) as (Hid & He & Hr).
    destruct IH as (s & Hs & Hv).
    { intros r' Hr'. apply Hg. now right. }
    simpl. unfold contribution_r.
    rewrite weight_in_group by (rewrite Hid; exact Hq).
    simpl. rewrite Hs. simpl. eexists. split; [reflexivity |].
    rewrite Hid, Hv, Hr. unfold total_pnl. rewrite fmap_cons.
    cbn [Qsum]. unfold row_pnl at 2. rewrite He.
    assert (Hq' : ~ inject_Z (total_qty_per_trade df tid) == 0).
    { intros H. apply Hq.
      now apply (inject_Z_injective (total_qty_per_trade df tid) 0). }
    generalize dependent (inject_Z (total_qty_per_trade df tid)).
    intros T _ HT.
    generalize (Qsum (row_pnl <$> g)) (inject_Z (exit_qty r))
      (tr_exit_price r).
    intros P q x. field. split; assumption.
Qed.

(** C1. In a group of ledger rows of one trade whose entry price [E] and
    per-share risk unit [u] (not 0) are the same in every row, and whose
    exit quantities add up to the quantity [Qty] of the position (not 0),
    the [total_trade_r] that [calculate_real_expectancy] computes for the
    group, the sum of [r_multiple * exit_qty / total exit_qty], is the
    total exit profit divided by [u * Qty]. *)
Theorem total_trade_r_is_pnl_over_risk (df : list TradeRow) (tid : string)
    (E u : Q) (Qty : Z) :
  (forall r, r ∈ group df tid ->
     tr_entry_price r == E /\
     r_multiple r == recorded_r (tr_exit_price r) E u) ->
  ~ u == 0 ->
  Zsum (exit_qty <$> group df tid) = Qty ->
  Qty <> 0%Z ->
  exists v,
    total_trade_r df tid = Some v /\
    v == total_pnl (group df tid) / (u * inject_Z Qty).
Proof.
  intros Hrows Hu Hsum Hq.
  fold (total_qty_per_trade df tid) in Hsum. subst Qty.
  unfold total_trade_r.
  apply (sum_contributions_pnl df tid E u); [exact Hu | exact Hq |].
  intros r Hr. split.
  - unfold group in Hr. apply list_elem_of_filter in Hr. tauto.
  - destruct (Hrows r Hr) as [He Hm]. split; [exact He |].
    now rewrite recorded_r_nonzero in Hm.
Qed.

Lemma total_trade_r_is_pnl_over_risk_witness :
  exists v,
    total_trade_r ledger2 "AAPL_2024-01-02" = Some v /\
    v == total_pnl (group ledger2 "AAPL_2024-01-02") / (5 * inject_Z 20).
Proof.
  apply (total_trade_r_is_pnl_over_risk ledger2 "AAPL_2024-01-02" 100 5 20).
  - intros r Hr. vm_compute in Hr.
    apply elem_of_cons in Hr. destruct Hr as [-> | Hr];
      [split; reflexivity |].
    apply elem_of_cons in Hr. destruct Hr as [-> | Hr];
      [split; reflexivity |].
    apply elem_of_nil in Hr. contradiction.
  - discriminate.
  - reflexivity.
  - discriminate.
Defined.

(** On that ledger: 350 of profit over 5 * 20 of risk is 3.5 R for the
    trade; with the losing trade the expectancy is 1.25 R over two trades,
    half of them won. *)
Example total_trade_r_ledger2 :
  Qred <$> total_trade_r ledger2 "AAPL_2024-01-02" = Some (7 # 2).
Proof. vm_compute. reflexivity. Qed.

Example calculate_real_expectancy_ledger2 :
  (fun '(e, w, n) => (Qred e, Qred w, n))
    <$> calculate_real_expectancy true ledger2
  = Some (5 # 4, 50, 2%Z).
Proof. vm_compute. reflexivity. Qed.

(** When the risk unit is 0 every row records 0 R and the total is 0,
    whatever the profit: the quotient by [u * Qty] has no value there. *)
Example total_trade_r_degenerate :
  let row :=
    {| tr_ticker := "XOM"; tr_entry_date := "2024-01-04";
       tr_exit_date := "2024-03-01"; tr_entry_price := 50;
       tr_exit_price := 60; r_multiple := recorded_r 60 50 0;
       trade_id := "XOM_2024-01-04"; exit_qty := 5 |} in
  Qred <$> total_trade_r [row] "XOM_2024-01-04" = Some 0 /\
  total_pnl [row] == 50.
Proof. split; vm_compute; reflexivity. Qed.

(** * Further properties of the engine *)

(** ** Total open risk *)

Lemma row_or_Some (u : Q) (row : Position) :
  calculate_dynamic_or (entry_price row) (stop_loss row) (quantity row) u
  = Some (row_or u row).
Proof.
  unfold row_or.
  destruct (dynamic_or_total (entry_price row) (stop_loss row)
              (quantity row) u) as [v Hv].
  now rewrite Hv.
Qed.

(** [calculate_tor] is the sum of the rows' open risks. *)
Lemma calculate_tor_sum (rows : list Position) (u : Q) :
  calculate_tor rows u = Some (Qsum (row_or u <$> rows)).
Proof.
  induction rows as [| row rest IH]; [reflexivity |].
  cbn [calculate_tor]. rewrite row_or_Some, IH. reflexivity.
Qed.

Lemma row_or_nonneg (u : Q) (row : Position) :
  (0 <= quantity row)%Z -> 0 <= row_or u row.
Proof.
  intros Hq. unfold row_or, calculate_dynamic_or.
  destruct (Qle_bool (entry_price row) (stop_loss row)) eqn:E;
    [simpl; lra |].
  apply Qle_bool_false_iff in E.
  destruct (Py.Qlt_bool 0 u) eqn:Eu; [| simpl; lra].
  apply Qlt_bool_iff in Eu. rewrite pydiv_Some by lra. simpl.
  apply open_risk_nonneg; [exact Eu | lra | exact Hq].
Qed.

Lemma Qsum_nonneg (l : list Q) : Forall (fun x => 0 <= x) l -> 0 <= Qsum l.
Proof.
  induction 1 as [| x l Hx _ IH]; simpl; lra.
Qed.

Lemma Qsum_app (l1 l2 : list Q) : Qsum (l1 ++ l2) == Qsum l1 + Qsum l2.
Proof.
  induction l1 as [| x l1 IH]; simpl; [lra | rewrite IH; lra].
Qed.

Lemma Qsum_perm (l1 l2 : list Q) : l1 ≡ₚ l2 -> Qsum l1 == Qsum l2.
Proof.
  induction 1 as [| x l1 l2 _ IH | x y l | l1 l2 l3 _ IH1 _ IH2]; simpl.
  - reflexivity.
  - rewrite IH. reflexivity.
  - lra.
  - rewrite IH1. exact IH2.
Qed.

(** X1. [calculate_tor] never raises, whatever the rows and the 1R unit;
    with a 1R unit that is zero or negative the total open risk is 0. *)
Theorem calculate_tor_guarded (rows : list Position) (current_1r_unit : Q) :
  is_Some (calculate_tor rows current_1r_unit) /\
  (current_1r_unit <= 0 ->
   exists v, calculate_tor rows current_1r_unit = Some v /\ v == 0).
Proof.
  split; [rewrite calculate_tor_sum; eauto |].
  intros Hu. rewrite calculate_tor_sum. eexists. split; [reflexivity |].
  induction rows as [| row rest IH]; [reflexivity |].
  rewrite fmap_cons. cbn [Qsum]. rewrite IH.
  unfold row_or. rewrite dynamic_or_guarded by exact Hu. reflexivity.
Qed.

Lemma calculate_tor_guarded_witness :
  exists v, calculate_tor [aapl; msft] 0 = Some v /\ v == 0.
Proof.
  apply (calculate_tor_guarded [aapl; msft] 0). lra.
Defined.

(** X2. The total open risk does not depend on the order of the rows, and
    the total of two frames put together is the sum of their totals. *)
Theorem calculate_tor_order_and_append (rows rows' more : list Position)
    (current_1r_unit : Q) :
  (rows ≡ₚ rows' ->
   exists v v',
     calculate_tor rows current_1r_unit = Some v /\
     calculate_tor rows' current_1r_unit = Some v' /\
     v == v') /\
  (exists v w vw,
     calculate_tor rows current_1r_unit = Some v /\
     calculate_tor more current_1r_unit = Some w /\
     calculate_tor (rows ++ more) current_1r_unit = Some vw /\
     vw == v + w).
Proof.
  split.
  - intros Hp. eexists _, _.
    split; [apply calculate_tor_sum |].
    split; [apply calculate_tor_sum |].
    apply Qsum_perm. now apply fmap_Permutation.
  - eexists _, _, _.
    split; [apply calculate_tor_sum |].
    split; [apply calculate_tor_sum |].
    split; [apply calculate_tor_sum |].
    rewrite fmap_app. apply Qsum_app.
Qed.

Lemma calculate_tor_order_and_append_witness :
  exists v v',
    calculate_tor [aapl; msft] 100 = Some v /\
    calculate_tor [msft; aapl] 100 = Some v' /\
    v == v'.
Proof.
  apply (calculate_tor_order_and_append [aapl; msft] [msft; aapl] [] 100).
  apply Permutation_swap.
Defined.

(** X3. For rows of non-negative quantity the total open risk is not
    negative, whatever the 1R unit, and it is 0 when every stop is at or
    above its entry price. *)
Theorem calculate_tor_nonneg (rows : list Position) (current_1r_unit : Q) :
  Forall (fun row => (0 <= quantity row)%Z) rows ->
  exists v,
    calculate_tor rows current_1r_unit = Some v /\
    0 <= v /\
    (Forall (fun row => entry_price row <= stop_loss row) rows -> v == 0).
Proof.
  intros Hq. rewrite calculate_tor_sum. eexists. split; [reflexivity |].
  split.
  - apply Qsum_nonneg. apply Forall_fmap.
    eapply Forall_impl; [exact Hq |]. intros row Hrow. simpl.
    now apply row_or_nonneg.
  - intros Hs. clear Hq. induction Hs as [| row rest Hrow _ IH];
      [reflexivity |].
    rewrite fmap_cons. cbn [Qsum]. rewrite IH.
    unfold row_or. rewrite dynamic_or_at_or_above by exact Hrow.
    reflexivity.
Qed.

Lemma calculate_tor_nonneg_witness :
  exists v,
    calculate_tor [aapl; msft] 100 = Some v /\
    0 <= v /\
    (Forall (fun row => entry_price row <= stop_loss row) [aapl; msft] ->
     v == 0).
Proof.
  apply (calculate_tor_nonneg [aapl; msft] 100).
  repeat constructor; discriminate.
Defined.

(** The total open risk of the sample portfolio: 1 R and 2 R. *)
Example calculate_tor_sample :
  Qred <$> calculate_tor [aapl; msft] 100 = Some 3.
Proof. vm_compute. reflexivity. Qed.

(** ** Stops and exits together *)

Lemma set_portfolio_id (f : gmap string Position -> gmap string Position)
    (db : DB) :
  f (portfolio db) = portfolio db -> set_portfolio f db = db.
Proof.
  intros H. destruct db as [pf th ac]. unfold set_portfolio. simpl in *.
  now rewrite H.
Qed.

Lemma alter_absent (f : Position -> Position) (t : string)
    (m : gmap string Position) :
  m !! t = None -> alter f t m = m.
Proof.
  intros H. apply map_eq. intros k.
  rewrite lookup_alter. case_decide; [subst; now rewrite H | reflexivity].
Qed.

(** X4. Moving the stop of an open position to its entry price (the
    button "Move to BE") makes its open risk 0, whatever the 1R unit. *)
Theorem move_to_break_even_zeroes_open_risk (ticker : string) (db : DB)
    (p : Position) (current_1r_unit : Q) :
  portfolio db !! ticker = Some p ->
  exists p',
    portfolio (update_stop_loss ticker (entry_price p) db) !! ticker
    = Some p' /\
    calculate_dynamic_or (entry_price p') (stop_loss p') (quantity p')
      current_1r_unit = Some 0.
Proof.
  intros Hp. exists (set_stop_loss (entry_price p) p).
  rewrite update_stop_loss_lookup, decide_True, Hp by reflexivity.
  split; [reflexivity |]. simpl.
  apply dynamic_or_at_or_above. lra.
Qed.

Lemma move_to_break_even_zeroes_open_risk_witness :
  exists p',
    portfolio (update_stop_loss "AAPL" (entry_price aapl) db0) !! "AAPL"
    = Some p' /\
    calculate_dynamic_or (entry_price p') (stop_loss p') (quantity p') 100
    = Some 0.
Proof.
  apply (move_to_break_even_zeroes_open_risk "AAPL" db0 aapl 100).
  reflexivity.
Defined.

(** X5. [update_stop_loss] for a ticker that has no row changes nothing. *)
Theorem update_stop_loss_absent (ticker : string) (new_stop : Q) (db : DB) :
  portfolio db !! ticker = None ->
  update_stop_loss ticker new_stop db = db.
Proof.
  intros H. unfold update_stop_loss.
  apply set_portfolio_id. now apply alter_absent.
Qed.

Lemma update_stop_loss_absent_witness :
  update_stop_loss "TSLA" 200 db0 = db0.
Proof.
  apply (update_stop_loss_absent "TSLA" 200 db0). reflexivity.
Defined.

(** X6. The R multiple of an exit does not depend on where the stop was
    moved in the meantime: for a position with an initial stop, closing it
    (or selling part of it) after [update_stop_loss] writes the same ledger
    and the same account as closing it before. *)
Theorem moved_stop_does_not_change_recorded_r (ticker : string)
    (new_stop exit_price entry_px current_1r_unit : Q) (qty : Z)
    (today now : string) (db : DB) (p : Position) (s : Q) :
  portfolio db !! ticker = Some p ->
  initial_stop_loss p = Some s ->
  let db_moved := update_stop_loss ticker new_stop db in
  (exists d d',
     close_position ticker exit_price qty today now db = Some d /\
     close_position ticker exit_price qty today now db_moved = Some d' /\
     trade_history d' = trade_history d /\
     account_config d' = account_config d) /\
  (exists d d',
     process_partial_exit ticker qty exit_price entry_px current_1r_unit
       today now db = Some d /\
     process_partial_exit ticker qty exit_price entry_px current_1r_unit
       today now db_moved = Some d' /\
     trade_history d' = trade_history d /\
     account_config d' = account_config d).
Proof.
  intros Hp Hs db_moved.
  assert (Hp' : portfolio db_moved !! ticker
                = Some (set_stop_loss new_stop p)).
  { unfold db_moved.
    now rewrite update_stop_loss_lookup, decide_True, Hp by reflexivity. }
  split.
  - eexists _, _.
    split; [apply (close_position_open _ _ _ _ _ _ _ Hp) |].
    split; [apply (close_position_open _ _ _ _ _ _ _ Hp') |].
    simpl. unfold risk_unit. simpl. rewrite Hs. simpl.
    split; reflexivity.
  - eexists _, _.
    split; [apply (process_partial_exit_open _ _ _ _ _ _ _ _ _ Hp) |].
    split; [apply (process_partial_exit_open _ _ _ _ _ _ _ _ _ Hp') |].
    simpl. rewrite Hs. simpl. split; reflexivity.
Qed.

Lemma moved_stop_does_not_change_recorded_r_witness :
  exists d d',
    close_position "AAPL" 110 20 "2024-03-01" "2024-03-01 10:00:00" db0
    = Some d /\
    close_position "AAPL" 110 20 "2024-03-01" "2024-03-01 10:00:00"
      (update_stop_loss "AAPL" 100 db0) = Some d' /\
    trade_history d' = trade_history d /\
    account_config d' = account_config d.
Proof.
  apply (moved_stop_does_not_change_recorded_r "AAPL" 100 110 100 100 20
           "2024-03-01" "2024-03-01 10:00:00" db0 aapl 95);
    reflexivity.
Defined.

(** A row older than the column [initial_stop_loss] has none, and there
    the moved stop does change the recorded R: 2 R before, 0 R after the
    stop is at the entry price. *)
Example moved_stop_changes_r_without_initial_stop :
  let old_row :=
    {| entry_price := 100; stop_loss := 95; quantity := 20;
       sector := "Tech/AI"; entry_date := "2023-06-01";
       breakdown_low := None; initial_stop_loss := None |} in
  let db := set_portfolio (insert "IBM" old_row) db0 in
  let r d := (fun row => Qred (r_multiple row)) <$> last (trade_history d) in
  (close_position "IBM" 110 20 "2024-03-01" "2024-03-01 10:00:00" db
     ≫= r) = Some 2 /\
  (close_position "IBM" 110 20 "2024-03-01" "2024-03-01 10:00:00"
     (update_stop_loss "IBM" 100 db) ≫= r) = Some 0.
Proof. split; vm_compute; reflexivity. Qed.

Lemma exits_without_position_aux (ticker : string) (qty : Z)
    (exit_px entry_px u : Q) (today now : string) (db : DB) :
  portfolio db !! ticker = None ->
  process_partial_exit ticker qty exit_px entry_px u today now db = None.
Proof.
  intros H. unfold process_partial_exit. rewrite H. simpl.
  rewrite lookup_alter, decide_True, H by reflexivity. reflexivity.
Qed.

(** X7. An exit for a ticker that has no row: [close_position] commits
    without any change, while [process_partial_exit] raises before its
    commit, so that nothing of it is stored. *)
Theorem exits_without_position (ticker : string) (exit_price entry_px : Q)
    (qty : Z) (current_1r_unit : Q) (today now : string) (db : DB) :
  portfolio db !! ticker = None ->
  close_position ticker exit_price qty today now db = Some db /\
  process_partial_exit ticker qty exit_price entry_px current_1r_unit
    today now db = None.
Proof.
  intros H. split.
  - unfold close_position. now rewrite H.
  - now apply exits_without_position_aux.
Qed.

Lemma exits_without_position_witness :
  close_position "TSLA" 250 5 "2024-03-01" "2024-03-01 10:00:00" db0
  = Some db0 /\
  process_partial_exit "TSLA" 5 250 200 100 "2024-03-01"
    "2024-03-01 10:00:00" db0 = None.
Proof.
  apply (exits_without_position "TSLA" 250 200 5 100 "2024-03-01"
           "2024-03-01 10:00:00" db0).
  reflexivity.
Defined.

(** ** The quantity invariant *)

Lemma close_position_lookup (ticker : string) (exit_price : Q) (qty : Z)
    (today now : string) (db d : DB) (p : Position) (t : string) :
  portfolio db !! ticker = Some p ->
  close_position ticker exit_price qty today now db = Some d ->
  portfolio d !! t
  = if decide (ticker = t)
    then (if (0 <? quantity p - Z.min qty (quantity p))%Z
          then Some (set_quantity (quantity p - Z.min qty (quantity p)) p)
          else None)
    else portfolio db !! t.
Proof.
  intros Hp Hd.
  rewrite (close_position_open _ _ _ _ _ _ _ Hp) in Hd.
  injection Hd as <-. simpl.
  destruct (0 <? _)%Z; case_decide; subst.
  - now rewrite lookup_alter, decide_True, Hp.
  - now rewrite lookup_alter_ne.
  - now rewrite lookup_delete_eq.
  - now rewrite lookup_delete_ne.
Qed.

Lemma process_partial_exit_lookup (ticker : string) (qty : Z)
    (exit_px entry_px u : Q) (today now : string) (db d : DB)
    (p : Position) (t : string) :
  portfolio db !! ticker = Some p ->
  process_partial_exit ticker qty exit_px entry_px u today now db = Some d ->
  portfolio d !! t
  = if decide (ticker = t)
    then (if (quantity p - qty <=? 0)%Z then None
          else Some (set_quantity (quantity p - qty) p))
    else portfolio db !! t.
Proof.
  intros Hp Hd.
  rewrite (process_partial_exit_open _ _ _ _ _ _ _ _ _ Hp) in Hd.
  injection Hd as <-. simpl.
  destruct (_ <=? 0)%Z; case_decide; subst.
  - now rewrite lookup_delete_eq.
  - now rewrite lookup_delete_ne.
  - now rewrite lookup_insert_eq.
  - now rewrite lookup_insert_ne.
Qed.

(** X8. If every open position has a positive quantity, this is still so
    after [close_position], after [process_partial_exit] and after
    [update_stop_loss], for every ticker, price and quantity they are
    given: an exit that leaves nothing, or less than nothing, deletes the
    row. *)
Theorem exits_keep_quantities_positive (ticker : string)
    (exit_price entry_px current_1r_unit new_stop : Q) (qty : Z)
    (today now : string) (db : DB) :
  quantities_positive db ->
  (forall d, close_position ticker exit_price qty today now db = Some d ->
             quantities_positive d) /\
  (forall d, process_partial_exit ticker qty exit_price entry_px
               current_1r_unit today now db = Some d ->
             quantities_positive d) /\
  quantities_positive (update_stop_loss ticker new_stop db).
Proof.
  intros Hinv. split; [| split].
  - intros d Hd t q Hq.
    destruct (portfolio db !! ticker) as [p |] eqn:Hp.
    + rewrite (close_position_lookup _ _ _ _ _ _ _ _ t Hp Hd) in Hq.
      case_decide; [| now apply (Hinv t)].
      destruct (Z.ltb_spec 0 (quantity p - Z.min qty (quantity p)));
        [| discriminate].
      injection Hq as <-. simpl. assumption.
    + unfold close_position in Hd. rewrite Hp in Hd.
      injection Hd as <-. now apply (Hinv t).
  - intros d Hd t q Hq.
    destruct (portfolio db !! ticker) as [p |] eqn:Hp.
    + rewrite (process_partial_exit_lookup _ _ _ _ _ _ _ _ _ _ t Hp Hd)
        in Hq.
      case_decide; [| now apply (Hinv t)].
      destruct (Z.leb_spec (quantity p - qty) 0); [discriminate |].
      injection Hq as <-. simpl. assumption.
    + pose proof (exits_without_position_aux ticker qty exit_price entry_px
                    current_1r_unit today now db Hp) as Hn.
      congruence.
  - intros t q Hq. rewrite update_stop_loss_lookup in Hq.
    case_decide; [| now apply (Hinv t)].
    destruct (portfolio db !! t) as [p |] eqn:Hp; [| discriminate].
    simpl in Hq. injection Hq as <-. simpl. now apply (Hinv t).
Qed.

Lemma db0_quantities_positive : quantities_positive db0.
Proof.
  intros t p H. unfold db0 in H. simpl in H.
  rewrite lookup_insert in H. case_decide.
  - injection H as <-. reflexivity.
  - rewrite lookup_insert in H. case_decide.
    + injection H as <-. reflexivity.
    + rewrite lookup_empty in H. discriminate.
Qed.

Lemma exits_keep_quantities_positive_witness :
  (forall d,
     close_position "AAPL" 110 25 "2024-03-01" "2024-03-01 10:00:00" db0
     = Some d -> quantities_positive d) /\
  (forall d,
     process_partial_exit "AAPL" 25 110 100 100 "2024-03-01"
       "2024-03-01 10:00:00" db0 = Some d -> quantities_positive d) /\
  quantities_positive (update_stop_loss "AAPL" 100 db0).
Proof.
  apply (exits_keep_quantities_positive "AAPL" 110 100 100 100 25
           "2024-03-01" "2024-03-01 10:00:00" db0).
  exact db0_quantities_positive.
Defined.

(** ** Adding positions *)

Lemma upper_ascii_idem (c : ascii) : upper_ascii (upper_ascii c) = upper_ascii c.
Proof. destruct c as [[] [] [] [] [] [] [] []]; reflexivity. Qed.

Lemma upper_idem (s : string) : upper (upper s) = upper s.
Proof.
  induction s as [| c s IH]; [reflexivity |].
  simpl. now rewrite upper_ascii_idem, IH.
Qed.

Lemma add_position_portfolio (ticker : string) (entry stop : Q) (qty : Z)
    (sector_ today : string) (db : DB) :
  let db' := add_position ticker entry stop qty sector_ today db in
  (portfolio db' = portfolio db \/
   exists row, portfolio db' = <[upper ticker := row]> (portfolio db)) /\
  trade_history db' = trade_history db /\
  account_config db' = account_config db.
Proof.
  unfold add_position.
  destruct (portfolio db !! upper ticker) as [old |].
  - destruct (Py.pydiv _ _).
    + split; [right; eexists; reflexivity | split; reflexivity].
    + split; [now left | split; reflexivity].
  - split; [right; eexists; reflexivity | split; reflexivity].
Qed.

(** X9. [add_position] touches the row of the upper-cased ticker only:
    every other position, the ledger and the account are as they were,
    whether the fill was inserted, merged or refused. *)
Theorem add_position_frame (ticker : string) (entry stop : Q) (qty : Z)
    (sector_ today : string) (db : DB) (other : string) :
  other <> upper ticker ->
  let db' := add_position ticker entry stop qty sector_ today db in
  portfolio db' !! other = portfolio db !! other /\
  trade_history db' = trade_history db /\
  account_config db' = account_config db.
Proof.
  intros Hne db'.
  destruct (add_position_portfolio ticker entry stop qty sector_ today db)
    as ([H | [row H]] & Ht & Ha); fold db' in H, Ht, Ha.
  - rewrite H. auto.
  - rewrite H, lookup_insert_ne by congruence. auto.
Qed.

Lemma add_position_frame_witness :
  let db' := add_position "aapl" 110 105 20 "Tech/AI" "2024-02-01" db0 in
  portfolio db' !! "MSFT" = portfolio db0 !! "MSFT" /\
  trade_history db' = trade_history db0 /\
  account_config db' = account_config db0.
Proof.
  apply (add_position_frame "aapl" 110 105 20 "Tech/AI" "2024-02-01" db0
           "MSFT").
  discriminate.
Defined.

(** X10. A fill that brings the quantity of an existing row to exactly 0
    is refused: the division of the average price raises, the handler
    catches it, and the tables are left as they were. *)
Theorem add_position_zero_total_refused (ticker : string) (entry stop : Q)
    (qty : Z) (sector_ today : string) (db : DB) (old : Position) :
  portfolio db !! upper ticker = Some old ->
  (quantity old + qty = 0)%Z ->
  add_position ticker entry stop qty sector_ today db = db.
Proof.
  intros Hold Hz. unfold add_position. rewrite Hold, Hz.
  now rewrite pydiv_None by reflexivity.
Qed.

Lemma add_position_zero_total_refused_witness :
  add_position "aapl" 110 105 (-20) "Tech/AI" "2024-02-01" db0 = db0.
Proof.
  apply (add_position_zero_total_refused "aapl" 110 105 (-20) "Tech/AI"
           "2024-02-01" db0 aapl); reflexivity.
Defined.

(** X11. [add_position] does not look at the case of the ticker: the
    ticker and its upper-case form give the same tables. *)
Theorem add_position_case_insensitive (ticker : string) (entry stop : Q)
    (qty : Z) (sector_ today : string) (db : DB) :
  add_position (upper ticker) entry stop qty sector_ today db
  = add_position ticker entry stop qty sector_ today db.
Proof.
  unfold add_position. now rewrite upper_idem.
Qed.

(** X12. Adding a position for a ticker that has no row and deleting it
    again gives back the tables as they were. *)
Theorem add_then_delete_position (ticker : string) (entry stop : Q)
    (qty : Z) (sector_ today : string) (db : DB) :
  portfolio db !! upper ticker = None ->
  delete_position (upper ticker)
    (add_position ticker entry stop qty sector_ today db) = db.
Proof.
  intros H. unfold add_position. rewrite H.
  unfold delete_position, set_portfolio. simpl.
  destruct db as [pf th ac]. simpl in *. f_equal.
  now apply delete_insert_id.
Qed.

Lemma add_then_delete_position_witness :
  delete_position (upper "tsla")
    (add_position "tsla" 200 190 10 "Others" "2024-02-01" db0) = db0.
Proof.
  apply (add_then_delete_position "tsla" 200 190 10 "Others" "2024-02-01"
           db0).
  reflexivity.
Defined.

(** ** From a fill to the ledger *)

Lemma Qabs_eq_0 (x : Q) : Qabs x == 0 -> x == 0.
Proof. apply Qabs_case; intros; lra. Qed.

(** X13. A position added for a new ticker and then closed in full: the
    ledger gets one row for the whole quantity, with the trade id of the
    ticker and the day of the fill and an R multiple measured against the
    stop of the fill; the portfolio is as before the fill and the account
    has the profit. *)
Theorem fresh_position_closed (ticker : string) (entry stop exit_price : Q)
    (qty : Z) (sector_ today today' now : string) (db : DB) :
  portfolio db !! upper ticker = None ->
  ~ entry == stop ->
  exists d row,
    close_position (upper ticker) exit_price qty today' now
      (add_position ticker entry stop qty sector_ today db) = Some d /\
    trade_history d = trade_history db ++ [row] /\
    exit_qty row = qty /\
    trade_id row = make_trade_id (upper ticker) today /\
    r_multiple row == (exit_price - entry) / Qabs (entry - stop) /\
    portfolio d = portfolio db /\
    total_equity (account_config d)
    == total_equity (account_config db)
       + (exit_price - entry) * inject_Z qty.
Proof.
  intros Hnone Hne.
  assert (Hp : portfolio (add_position ticker entry stop qty sector_ today
                            db) !! upper ticker
               = Some {| entry_price := entry; stop_loss := stop;
                         quantity := qty; sector := sector_;
                         entry_date := today; breakdown_low := None;
                         initial_stop_loss := Some stop |}).
  { unfold add_position. rewrite Hnone. simpl. apply lookup_insert_eq. }
  eexists _, _.
  split; [apply (close_position_open _ _ _ _ _ _ _ Hp) |].
  erewrite risk_unit_initial by reflexivity.
  cbn [trade_history portfolio account_config total_equity exit_qty
       trade_id r_multiple quantity entry_price entry_date].
  rewrite Z.min_id, Z.sub_diag.
  assert (Hadd : add_position ticker entry stop qty sector_ today db
                 = set_portfolio
                     (insert (upper ticker)
                        {| entry_price := entry; stop_loss := stop;
                           quantity := qty; sector := sector_;
                           entry_date := today; breakdown_low := None;
                           initial_stop_loss := Some stop |}) db).
  { unfold add_position. now rewrite Hnone. }
  rewrite Hadd. unfold set_portfolio.
  cbn [trade_history portfolio account_config total_equity].
  split; [reflexivity |]. split; [reflexivity |]. split; [reflexivity |].
  split.
  { rewrite recorded_r_nonzero; [reflexivity |].
    intros H0. apply Hne. apply Qabs_eq_0 in H0. lra. }
  split; [| reflexivity].
  change (0 <? 0)%Z with false. cbn iota.
  now apply delete_insert_id.
Qed.

Lemma fresh_position_closed_witness :
  exists d row,
    close_position (upper "tsla") 220 10 "2024-03-01" "2024-03-01 10:00:00"
      (add_position "tsla" 200 190 10 "Others" "2024-02-01" db0) = Some d /\
    trade_history d = trade_history db0 ++ [row] /\
    exit_qty row = 10%Z /\
    trade_id row = make_trade_id (upper "tsla") "2024-02-01" /\
    r_multiple row == (220 - 200) / Qabs (200 - 190) /\
    portfolio d = portfolio db0 /\
    total_equity (account_config d)
    == total_equity (account_config db0) + (220 - 200) * inject_Z 10.
Proof.
  apply (fresh_position_closed "tsla" 200 190 220 10 "Others" "2024-02-01"
           "2024-03-01" "2024-03-01 10:00:00" db0).
  - reflexivity.
  - discriminate.
Defined.

(** X14. After a fill is merged into an existing position, an exit still
    carries the trade id of the original entry date, while its R multiple
    is measured from the new average price against the stop of the new
    fill: the merge replaces the risk basis and keeps the trade. *)
Theorem merged_position_closed (ticker : string) (entry stop exit_price : Q)
    (qty qty_to_close : Z) (sector_ today today' now : string) (db : DB)
    (old : Position) :
  portfolio db !! upper ticker = Some old ->
  (quantity old + qty)%Z <> 0%Z ->
  let wac :=
    (entry_price old * inject_Z (quantity old) + entry * inject_Z qty)
    / inject_Z (quantity old + qty) in
  ~ Qabs (wac - stop) == 0 ->
  exists d row,
    close_position (upper ticker) exit_price qty_to_close today' now
      (add_position ticker entry stop qty sector_ today db) = Some d /\
    trade_history d = trade_history db ++ [row] /\
    trade_id row = make_trade_id (upper ticker) (entry_date old) /\
    tr_entry_date row = entry_date old /\
    r_multiple row == (exit_price - wac) / Qabs (wac - stop).
Proof.
  intros Hold Hq wac Hne.
  assert (Hp : portfolio (add_position ticker entry stop qty sector_ today
                            db) !! upper ticker
               = Some {| entry_price := wac; stop_loss := stop;
                         quantity := (quantity old + qty)%Z;
                         sector := sector_;
                         entry_date := entry_date old;
                         breakdown_low := breakdown_low old;
                         initial_stop_loss := Some stop |}).
  { unfold add_position. rewrite Hold.
    rewrite pydiv_Some.
    - simpl. apply lookup_insert_eq.
    - intros H. apply Hq.
      now apply (inject_Z_injective (quantity old + qty) 0). }
  eexists _, _.
  split; [apply (close_position_open _ _ _ _ _ _ _ Hp) |].
  erewrite risk_unit_initial by reflexivity.
  cbn [trade_history trade_id r_multiple tr_entry_date entry_price
       entry_date].
  split.
  { unfold add_position. rewrite Hold.
    destruct (Py.pydiv _ _); reflexivity. }
  split; [reflexivity |]. split; [reflexivity |].
  now rewrite recorded_r_nonzero.
Qed.

Lemma merged_position_closed_witness :
  let wac :=
    (entry_price aapl * inject_Z (quantity aapl) + 110 * inject_Z 20)
    / inject_Z (quantity aapl + 20) in
  exists d row,
    close_position (upper "aapl") 125 40 "2024-03-01" "2024-03-01 10:00:00"
      (add_position "aapl" 110 (205 # 2) 20 "Tech/AI" "2024-02-01" db0)
    = Some d /\
    trade_history d = trade_history db0 ++ [row] /\
    trade_id row = make_trade_id (upper "aapl") (entry_date aapl) /\
    tr_entry_date row = entry_date aapl /\
    r_multiple row == (125 - wac) / Qabs (wac - (205 # 2)).
Proof.
  apply (merged_position_closed "aapl" 110 (205 # 2) 125 20 40 "Tech/AI"
           "2024-02-01" "2024-03-01" "2024-03-01 10:00:00" db0 aapl).
  - reflexivity.
  - discriminate.
  - discriminate.
Defined.

(** ** From the exits to the expectancy *)

Lemma group_absent (th : list TradeRow) (tid : string) :
  (forall r, r ∈ th -> trade_id r <> tid) -> group th tid = [].
Proof.
  intros H. unfold group. induction th as [| r th IH]; [reflexivity |].
  rewrite filter_cons_False by (apply H; left).
  apply IH. intros r' Hr'. apply H. now right.
Qed.

Lemma group_app (a b : list TradeRow) (tid : string) :
  group (a ++ b) tid = group a tid ++ group b tid.
Proof. unfold group. apply filter_app. Qed.

(** X15. A position sold in two steps, a partial exit of [q1] shares at
    [x1] and then a close of the rest at [x2]: the row is gone, the ledger
    has two more rows of one trade id whose quantities add up to the
    quantity of the position, the account has the profit of both, and the
    [total_trade_r] of that trade over the new ledger is this profit over
    the risk unit times the quantity of the position. *)
Theorem partial_exit_then_close (ticker : string) (q1 q2 : Z)
    (x1 x2 current_1r_unit : Q) (today1 now1 today2 now2 : string)
    (db : DB) (p : Position) (s : Q) :
  portfolio db !! ticker = Some p ->
  initial_stop_loss p = Some s ->
  ~ entry_price p == s ->
  (0 < q1 < quantity p)%Z ->
  (quantity p - q1 <= q2)%Z ->
  (forall r, r ∈ trade_history db ->
     trade_id r <> make_trade_id ticker (entry_date p)) ->
  let E := entry_price p in
  let pnl := (x1 - E) * inject_Z q1 + (x2 - E) * inject_Z (quantity p - q1) in
  exists d1 d2 row1 row2 v,
    process_partial_exit ticker q1 x1 E current_1r_unit today1 now1 db
    = Some d1 /\
    close_position ticker x2 q2 today2 now2 d1 = Some d2 /\
    portfolio d2 !! ticker = None /\
    trade_history d2 = trade_history db ++ [row1; row2] /\
    trade_id row1 = trade_id row2 /\
    (exit_qty row1 + exit_qty row2 = quantity p)%Z /\
    total_equity (account_config d2)
    == total_equity (account_config db) + pnl /\
    total_trade_r (trade_history d2) (trade_id row1) = Some v /\
    v == pnl / (Qabs (E - s) * inject_Z (quantity p)).
Proof.
  intros Hp Hs Hne Hq1 Hq2 Hfresh E pnl.
  pose proof (process_partial_exit_open ticker q1 x1 E current_1r_unit
                today1 now1 db p Hp) as H1.
  cbv zeta in H1. rewrite Hs in H1.
  destruct (Z.leb_spec (quantity p - q1) 0) as [Hle | Hgt]; [lia |].
  match type of H1 with _ = Some ?d => set (d1 := d) in * end.
  assert (Hp1 : portfolio d1 !! ticker
                = Some (set_quantity (quantity p - q1) p)).
  { unfold d1. cbn [portfolio]. apply lookup_insert_eq. }
  pose proof (close_position_open ticker x2 q2 today2 now2 d1 _ Hp1) as H2.
  cbv zeta in H2.
  erewrite risk_unit_initial in H2 by exact Hs.
  cbn [quantity set_quantity entry_price entry_date] in H2.
  rewrite (Z.min_r q2 (quantity p - q1)) in H2 by lia.
  rewrite Z.sub_diag in H2. change (0 <? 0)%Z with false in H2.
  cbn iota in H2.
  match type of H2 with _ = Some ?d => set (d2 := d) in * end.
  assert (Hu : ~ Qabs (E - s) == 0).
  { intros H0. apply Hne. apply Qabs_eq_0 in H0. unfold E in H0. lra. }
  set (tid := make_trade_id ticker (entry_date p)).
  assert (Hth : trade_history d2
                = trade_history db ++
                  [ {| tr_ticker := ticker +:+ "(P)";
                       tr_entry_date := entry_date p;
                       tr_exit_date := today1; tr_entry_price := E;
                       tr_exit_price := x1;
                       r_multiple := recorded_r x1 E (Qabs (E - s));
                       trade_id := tid; exit_qty := q1 |};
                    {| tr_ticker := ticker; tr_entry_date := entry_date p;
                       tr_exit_date := today2; tr_entry_price := E;
                       tr_exit_price := x2;
                       r_multiple := recorded_r x2 E (Qabs (E - s));
                       trade_id := tid;
                       exit_qty := (quantity p - q1)%Z |} ]).
  { unfold d2, d1. cbn [trade_history]. now rewrite <- app_assoc. }
  match type of Hth with _ = _ ++ [?a; ?b] =>
    set (row1 := a) in *; set (row2 := b) in * end.
  assert (Hg : group (trade_history d2) tid = [row1; row2]).
  { rewrite Hth, group_app, (group_absent (trade_history db) tid Hfresh).
    unfold group. rewrite !filter_cons_True by reflexivity. reflexivity. }
  destruct (sum_contributions_pnl (trade_history d2) tid E (Qabs (E - s))
              [row1; row2]) as (v & Hv & Hveq).
  { exact Hu. }
  { unfold total_qty_per_trade. rewrite Hg. simpl. lia. }
  { intros r Hr.
    apply elem_of_cons in Hr. destruct Hr as [-> | Hr].
    - split; [reflexivity |]. split; [reflexivity |].
      unfold row1. cbn [r_multiple tr_exit_price].
      now rewrite recorded_r_nonzero.
    - apply elem_of_cons in Hr. destruct Hr as [-> | Hr];
        [| apply elem_of_nil in Hr; contradiction].
      split; [reflexivity |]. split; [reflexivity |].
      unfold row2. cbn [r_multiple tr_exit_price].
      now rewrite recorded_r_nonzero. }
  exists d1, d2, row1, row2, v.
  split; [exact H1 |]. split; [exact H2 |].
  split; [unfold d2; cbn [portfolio]; apply lookup_delete_eq |].
  split; [exact Hth |]. split; [reflexivity |].
  split; [unfold row1, row2; cbn [exit_qty]; lia |].
  split.
  { unfold d2, d1, pnl, E. cbn [account_config total_equity]. ring. }
  split.
  { unfold total_trade_r. cbn [trade_id row1]. rewrite Hg. exact Hv. }
  rewrite Hveq. unfold total_qty_per_trade. rewrite Hg.
  unfold total_pnl, row_pnl, pnl, row1, row2.
  cbn [fmap list_fmap Qsum Zsum exit_qty tr_exit_price tr_entry_price].
  replace (q1 + (quantity p - q1 + 0))%Z with (quantity p) by lia.
  assert (HQ : ~ inject_Z (quantity p) == 0).
  { intros H. apply (inject_Z_injective (quantity p) 0) in H. lia. }
  clear Hveq Hv H1 H2 Hp1.
  remember (Qabs (E - s)) as u eqn:Eu.
  remember (inject_Z (quantity p)) as T eqn:ET.
  remember (inject_Z (quantity p - q1)) as a eqn:Ea.
  remember (inject_Z q1) as b eqn:Eb.
  clearbody E. field. split; assumption.
Qed.

Lemma partial_exit_then_close_witness :
  let pnl := (110 - 100) * inject_Z 5 + (120 - 100) * inject_Z (20 - 5) in
  exists d1 d2 row1 row2 v,
    process_partial_exit "AAPL" 5 110 100 100 "2024-02-01"
      "2024-02-01 10:00:00" db0 = Some d1 /\
    close_position "AAPL" 120 15 "2024-03-01" "2024-03-01 10:00:00" d1
    = Some d2 /\
    portfolio d2 !! "AAPL" = None /\
    trade_history d2 = trade_history db0 ++ [row1; row2] /\
    trade_id row1 = trade_id row2 /\
    (exit_qty row1 + exit_qty row2 = 20)%Z /\
    total_equity (account_config d2)
    == total_equity (account_config db0) + pnl /\
    total_trade_r (trade_history d2) (trade_id row1) = Some v /\
    v == pnl / (Qabs (100 - 95) * inject_Z 20).
Proof.
  apply (partial_exit_then_close "AAPL" 5 15 110 120 100 "2024-02-01"
           "2024-02-01 10:00:00" "2024-03-01" "2024-03-01 10:00:00" db0
           aapl 95).
  - reflexivity.
  - reflexivity.
  - discriminate.
  - simpl. lia.
  - simpl. lia.
  - intros r Hr. simpl in Hr. apply elem_of_nil in Hr. contradiction.
Defined.

(** ** Expectancy of a ledger *)

Lemma Zsum_nonneg (l : list Z) : Forall (fun x => (0 < x)%Z) l -> (0 <= Zsum l)%Z.
Proof. induction 1; simpl; lia. Qed.

Lemma Zsum_elem (l : list Z) (x : Z) :
  Forall (fun y => (0 < y)%Z) l -> x ∈ l -> (x <= Zsum l)%Z.
Proof.
  induction 1 as [| y l Hy Hl IH]; intros Hx.
  - apply elem_of_nil in Hx. contradiction.
  - pose proof (Zsum_nonneg l Hl).
    apply elem_of_cons in Hx. destruct Hx as [-> | Hx]; simpl;
      [lia | specialize (IH Hx); lia].
Qed.

Lemma group_elem (df : list TradeRow) (tid : string) (r : TradeRow) :
  r ∈ group df tid <-> trade_id r = tid /\ r ∈ df.
Proof. unfold group. now rewrite list_elem_of_filter. Qed.

Lemma total_qty_positive (df : list TradeRow) (r : TradeRow) :
  Forall (fun x => (0 < exit_qty x)%Z) df -> r ∈ df ->
  (0 < total_qty_per_trade df (trade_id r))%Z.
Proof.
  intros Hpos Hr. unfold total_qty_per_trade.
  assert (Hq : (0 < exit_qty r)%Z).
  { rewrite Forall_forall in Hpos. now apply Hpos. }
  enough (exit_qty r <= Zsum (exit_qty <$> group df (trade_id r)))%Z by lia.
  apply Zsum_elem.
  - apply Forall_fmap, Forall_forall. intros x Hx.
    apply group_elem in Hx. rewrite Forall_forall in Hpos.
    apply Hpos. tauto.
  - apply list_elem_of_fmap_2. apply group_elem. auto.
Qed.

Lemma sum_contributions_is_Some (df g : list TradeRow) :
  (forall r, r ∈ g -> total_qty_per_trade df (trade_id r) <> 0%Z) ->
  is_Some (sum_contributions df g).
Proof.
  induction g as [| r g IH]; intros H; [simpl; eauto |].
  destruct IH as [s Hs]; [intros r' Hr'; apply H; now right |].
  simpl. unfold contribution_r.
  rewrite weight_in_group by (apply H; left). simpl. rewrite Hs. simpl.
  eauto.
Qed.

Lemma win_rate_bounds (c n : Z) :
  (0 <= c <= n)%Z -> (0 < n)%Z ->
  0 <= inject_Z c / inject_Z n * 100 /\ inject_Z c / inject_Z n * 100 <= 100.
Proof.
  intros Hc Hn.
  pose proof (inject_Z_pos n Hn) as Hn'.
  assert (H0 : 0 <= inject_Z c / inject_Z n).
  { apply Qle_shift_div_l; [exact Hn' |].
    pose proof (inject_Z_nonneg c ltac:(lia)). lra. }
  assert (H1 : inject_Z c / inject_Z n <= 1).
  { apply Qle_shift_div_r; [exact Hn' |].
    assert (inject_Z c <= inject_Z n) by (rewrite <- Zle_Qle; lia). lra. }
  split; lra.
Qed.

(** X16. On a non-empty ledger with the grouping columns in which every
    exit quantity is positive, [calculate_real_expectancy] returns a
    result: the number of trades is the number of distinct trade ids, at
    least one, and the win rate lies between 0 and 100. *)
Theorem calculate_real_expectancy_counts_trades (df : list TradeRow) :
  df <> [] ->
  Forall (fun r => (0 < exit_qty r)%Z) df ->
  exists expectancy win_rate total_trades,
    calculate_real_expectancy true df
    = Some (expectancy, win_rate, total_trades) /\
    total_trades = Z.of_nat (length (remove_dups (trade_id <$> df))) /\
    (0 < total_trades)%Z /\
    0 <= win_rate /\ win_rate <= 100.
Proof.
  intros Hne Hpos.
  destruct df as [| r0 df']; [contradiction |].
  set (df := r0 :: df') in *.
  assert (Hg : is_Some (trade_grouped df)).
  { unfold trade_grouped. apply mapM_is_Some, Forall_forall.
    intros tid _. simpl. unfold total_trade_r.
    apply sum_contributions_is_Some. intros r Hr.
    apply group_elem in Hr. destruct Hr as [_ Hr].
    pose proof (total_qty_positive df r Hpos Hr). lia. }
  destruct Hg as [totals Htot].
  pose proof (length_mapM _ _ _ Htot) as Hlen.
  assert (Hids : (0 < length (remove_dups (trade_id <$> df)))%nat).
  { assert (Hin : trade_id r0 ∈ remove_dups (trade_id <$> df)).
    { apply elem_of_remove_dups, list_elem_of_fmap_2. now left. }
    destruct (remove_dups (trade_id <$> df));
      [apply elem_of_nil in Hin; contradiction | simpl; lia]. }
  unfold calculate_real_expectancy. fold df.
  change (match df with [] => _ | _ :: _ => ?b end) with b.
  cbn [negb]. rewrite Htot. cbn [mbind option_bind].
  assert (Hn : (0 < Z.of_nat (length totals))%Z) by lia.
  rewrite (proj2 (Z.ltb_lt _ _) Hn).
  rewrite pydiv_Some.
  2:{ pose proof (inject_Z_pos _ Hn). lra. }
  cbn [mbind option_bind].
  eexists _, _, _. split; [reflexivity |].
  split; [now rewrite Hlen |]. split; [exact Hn |].
  apply win_rate_bounds; [| exact Hn].
  unfold count_positive. split; [lia |].
  apply Nat2Z.inj_le, length_filter.
Qed.

Lemma calculate_real_expectancy_counts_trades_witness :
  exists expectancy win_rate total_trades,
    calculate_real_expectancy true ledger2
    = Some (expectancy, win_rate, total_trades) /\
    total_trades = Z.of_nat (length (remove_dups (trade_id <$> ledger2))) /\
    (0 < total_trades)%Z /\
    0 <= win_rate /\ win_rate <= 100.
Proof.
  apply (calculate_real_expectancy_counts_trades ledger2).
  - discriminate.
  - repeat constructor.
Defined.




(** ** Recent performance and the regime *)

(** X18. With fewer ledger rows than the limit, [get_recent_performance]
    answers the neutral 100, whatever the rows. *)
Theorem recent_performance_small_sample (limit : nat) (ordered : list Q) :
  (length ordered < limit)%nat ->
  get_recent_performance limit ordered = Some 100.
Proof.
  intros H. unfold get_recent_performance.
  rewrite length_take_ge by lia.
  now rewrite (proj2 (Nat.ltb_lt _ _) H).
Qed.

Lemma recent_performance_small_sample_witness :
  get_recent_performance 5 [-(1); -(2); -(1); -(1)] = Some 100.
Proof.
  apply (recent_performance_small_sample 5 [-(1); -(2); -(1); -(1)]).
  simpl. lia.
Defined.

Ltac indicator_cases :=
  repeat match goal with
         | |- context [Py.Qlt_bool 0 ?x] =>
             let E := fresh "E" in
             destruct (Py.Qlt_bool 0 x) eqn:E;
             [apply Qlt_bool_iff in E | apply Qlt_bool_false_iff in E]
         end.

(** X19. With at least five ledger rows, the win rate of
    [get_recent_performance(5)] lies between 0 and 100, and it is below the
    threshold 20 exactly when none of the five most recent trades has a
    positive R multiple: a single winner among them gives 20, which is not
    below 20. *)
Theorem recent_performance_of_five (ordered : list Q) :
  (5 <= length ordered)%nat ->
  exists w,
    get_recent_performance 5 ordered = Some w /\
    0 <= w /\ w <= 100 /\
    (w < 20 <-> Forall (fun r => r <= 0) (take 5 ordered)).
Proof.
  intros H.
  destruct ordered as [| a [| b [| c [| d [| e rest]]]]];
    simpl in H; try lia.
  unfold get_recent_performance.
  change (take 5 (a :: b :: c :: d :: e :: rest)) with [a; b; c; d; e].
  change (length [a; b; c; d; e] <? 5)%nat with false. cbn iota.
  unfold mean. rewrite !fmap_cons, fmap_nil.
  indicator_cases;
    (eexists; split; [reflexivity |];
     split; [vm_compute; discriminate |];
     split; [vm_compute; discriminate |];
     split;
     [ intros Hw;
       first [ (vm_compute in Hw; discriminate)
             | (repeat constructor; assumption) ]
     | intros HF;
       first [ reflexivity
             | (repeat match goal with
                       | HF : Forall _ (_ :: _) |- _ =>
                           apply Forall_cons in HF; destruct HF
                       end; lra) ] ]).
Qed.

Lemma recent_performance_of_five_witness :
  exists w,
    get_recent_performance 5 [-(1); 0; -(2); -(1); -(1); 3] = Some w /\
    0 <= w /\ w <= 100 /\
    (w < 20 <-> Forall (fun r => r <= 0)
                  (take 5 [-(1); 0; -(2); -(1); -(1); 3])).
Proof.
  apply (recent_performance_of_five [-(1); 0; -(2); -(1); -(1); 3]).
  simpl. lia.
Defined.

(** One winner among the last five is 20 percent, two are 40. *)
Example recent_performance_one_winner :
  Qred <$> get_recent_performance 5 [-(1); 2; -(2); -(1); -(1); 3]
  = Some 20.
Proof. vm_compute. reflexivity. Qed.

(** X20. In the sidebar the feedback override needs five losing trades:
    with at least five ledger rows of which none of the five most recent
    has a positive R multiple, the suggested regime is RED for every
    checklist and every pair of non-empty index histories; with fewer than
    five rows the suggestion is the one for a full win rate. *)
Theorem sidebar_override (checklist_count : Z) (ordered : list Q)
    (spy rsp : Fetch) :
  ((5 <= length ordered)%nat ->
   Forall (fun r => r <= 0) (take 5 ordered) ->
   forall spy_close rsp_close,
     spy = Fetched spy_close -> rsp = Fetched rsp_close ->
     spy_close <> [] -> rsp_close <> [] ->
     regime_of <$> sidebar_regime checklist_count ordered spy rsp
     = Some "RED") /\
  ((length ordered < 5)%nat ->
   sidebar_regime checklist_count ordered spy rsp
   = Some (suggest_market_regime checklist_count 100 spy rsp)).
Proof.
  split.
  - intros H5 Hlose spy_close rsp_close -> -> Hs Hr.
    destruct ordered as [| a [| b [| c [| d [| e rest]]]]];
      simpl in H5; try lia.
    change (take 5 (a :: b :: c :: d :: e :: rest)) with [a; b; c; d; e]
      in Hlose.
    repeat match goal with
           | HF : Forall _ (_ :: _) |- _ =>
               apply Forall_cons in HF; destruct HF
           end.
    unfold sidebar_regime, get_recent_performance.
    change (take 5 (a :: b :: c :: d :: e :: rest)) with [a; b; c; d; e].
    change (length [a; b; c; d; e] <? 5)%nat with false. cbn iota.
    rewrite !fmap_cons, fmap_nil.
    repeat match goal with
           | Hx : ?x <= 0 |- context [Py.Qlt_bool 0 ?x] =>
               rewrite (proj2 (Qlt_bool_false_iff 0 x) Hx)
           end.
    cbn [mbind option_bind fmap option_fmap option_map].
    f_equal. unfold suggest_market_regime.
    destruct (last spy_close) eqn:Es;
      [| apply last_None in Es; contradiction].
    destruct (last rsp_close) eqn:Er;
      [| apply last_None in Er; contradiction].
    reflexivity.
  - intros Hlt. unfold sidebar_regime.
    unfold get_recent_performance.
    rewrite length_take_ge by lia.
    now rewrite (proj2 (Nat.ltb_lt _ _) Hlt).
Qed.

Lemma sidebar_override_witness :
  regime_of <$> sidebar_regime 0 [-(1); 0; -(2); -(1); -(1); 3]
                  (Fetched (repeat 100 19 ++ [101]))
                  (Fetched (repeat 50 19 ++ [51]))
  = Some "RED" /\
  sidebar_regime 0 [-(1); -(2)]
    (Fetched (repeat 100 19 ++ [101])) (Fetched (repeat 50 19 ++ [51]))
  = Some (suggest_market_regime 0 100
            (Fetched (repeat 100 19 ++ [101]))
            (Fetched (repeat 50 19 ++ [51]))).
Proof.
  split.
  - apply (sidebar_override 0 [-(1); 0; -(2); -(1); -(1); 3]
             (Fetched (repeat 100 19 ++ [101]))
             (Fetched (repeat 50 19 ++ [51])))
      with (spy_close := repeat 100 19 ++ [101])
           (rsp_close := repeat 50 19 ++ [51]).
    + simpl. lia.
    + repeat constructor; discriminate.
    + reflexivity.
    + reflexivity.
    + discriminate.
    + discriminate.
  - apply (sidebar_override 0 [-(1); -(2)]). simpl. lia.
Defined.

Ltac classify_cases :=
  unfold suggest_market_regime, regime_of;
  repeat match goal with
         | |- context [match ?f with FetchRaised _ => _ | Fetched _ => _ end] =>
             destruct f
         | |- context [last ?l] => destruct (last l)
         | |- context [above ?a ?b] => destruct (above a b)
         | |- context [below ?a ?b] => destruct (below a b)
         | |- context [Py.Qlt_bool ?a ?b] => destruct (Py.Qlt_bool a b)
         end.

(** X21. The classifier answers one of GREEN, YELLOW, RED, UNKNOWN and
    ERROR; for the first three the colour it returns is the colour of that
    regime in [get_regime_params], for the other two it is gray. *)
Theorem suggest_market_regime_range (checklist_count : Z)
    (recent_win_rate : Q) (spy rsp : Fetch) :
  let '(regime, colour, _) :=
    suggest_market_regime checklist_count recent_win_rate spy rsp in
  (regime = "GREEN" \/ regime = "YELLOW" \/ regime = "RED") /\
  colour = color (get_regime_params regime)
  \/
  (regime = "UNKNOWN" \/ regime = "ERROR") /\ colour = "gray".
Proof.
  classify_cases; cbn [andb];
    try (right; split; [auto | reflexivity]);
    destruct (3 <=? checklist_count)%Z;
    left; (split; [auto | vm_compute; reflexivity]).
Qed.

(** X22. Crossing the checklist threshold of three warnings steps the
    suggestion down by one level and never more: with the same win rate
    and histories, the regime for three or more warnings is the downgrade
    of the regime for fewer than three. *)
Theorem checklist_downgrades_one_step (c_low c_high : Z)
    (recent_win_rate : Q) (spy rsp : Fetch) :
  (c_low < 3)%Z -> (3 <= c_high)%Z ->
  regime_of (suggest_market_regime c_high recent_win_rate spy rsp)
  = downgrade
      (regime_of (suggest_market_regime c_low recent_win_rate spy rsp)).
Proof.
  intros Hl Hh.
  apply Z.leb_le in Hh. apply Z.leb_gt in Hl.
  classify_cases; cbn [andb]; rewrite ?Hl, ?Hh; reflexivity.
Qed.

Lemma checklist_downgrades_one_step_witness :
  regime_of (suggest_market_regime 4 100
               (Fetched (repeat 100 19 ++ [101]))
               (Fetched (repeat 50 19 ++ [51])))
  = downgrade
      (regime_of (suggest_market_regime 1 100
                    (Fetched (repeat 100 19 ++ [101]))
                    (Fetched (repeat 50 19 ++ [51])))).
Proof.
  apply (checklist_downgrades_one_step 1 4); lia.
Defined.

(** X23. When one of the two histories has fewer than 20 rows, its 20-day
    average is [NaN] and both comparisons with it are false: with a win
    rate of 20 or more and fewer than three warnings the suggestion is
    YELLOW, whatever the prices. *)
Theorem short_history_is_yellow (checklist_count : Z) (recent_win_rate : Q)
    (spy_close rsp_close : list Q) :
  spy_close <> [] -> rsp_close <> [] ->
  (length spy_close < 20 \/ length rsp_close < 20)%nat ->
  20 <= recent_win_rate -> (checklist_count < 3)%Z ->
  regime_of (suggest_market_regime checklist_count recent_win_rate
               (Fetched spy_close) (Fetched rsp_close)) = "YELLOW".
Proof.
  intros Hs Hr Hshort Hw Hc.
  unfold suggest_market_regime, regime_of.
  destruct (last spy_close) eqn:Es; [| apply last_None in Es; contradiction].
  destruct (last rsp_close) eqn:Er; [| apply last_None in Er; contradiction].
  apply Qlt_bool_false_iff in Hw. rewrite Hw.
  apply Z.leb_gt in Hc. rewrite Hc.
  assert (Hbase :
    (if above q (sma20_last spy_close) && above q0 (sma20_last rsp_close)
     then "GREEN"
     else if below q (sma20_last spy_close)
             && below q0 (sma20_last rsp_close)
          then "RED" else "YELLOW") = "YELLOW").
  { unfold sma20_last.
    destruct Hshort as [H | H]; apply Nat.ltb_lt in H; rewrite H; simpl;
      rewrite ?andb_false_r; reflexivity. }
  rewrite Hbase. reflexivity.
Qed.

Lemma short_history_is_yellow_witness :
  regime_of (suggest_market_regime 0 100
               (Fetched [100; 101; 110]) (Fetched (repeat 50 19 ++ [51])))
  = "YELLOW".
Proof.
  apply (short_history_is_yellow 0 100 [100; 101; 110]
           (repeat 50 19 ++ [51])).
  - discriminate.
  - discriminate.
  - left. simpl. lia.
  - discriminate.
  - lia.
Defined.

(** ** Bounds of the recommended size *)




(** In the witness the stop is tight: 200 shares would risk 1 R, and the
    cap of 20 percent of the equity allows 20, which occupy 0.1 R. *)
Example sizing_cap_applied :
  (s ← position_sizing "GREEN" 10000 0 100 (995 # 10);
   match s with
   | Sized z =>
       Some (theoretical_shares z, final_shares z, cap_applied z,
             Qred (final_or_r z))
   | _ => None
   end) = Some (200%Z, 20%Z, true, 1 # 10).
Proof. vm_compute. reflexivity. Qed.

(** ** The portfolio monitor *)

Lemma monitor_row_db (ticker : string) (row : Position) (cp : option Q)
    (hist : list (Q * Q)) (n : Z) (db : DB) :
  (monitor_row ticker row cp hist n db).2 = db \/
  exists b,
    (monitor_row ticker row cp hist n db).2
    = set_portfolio (alter (set_breakdown_low b) ticker) db.
Proof.
  unfold monitor_row.
  destruct (truthy cp && truthy (sma20_last (fst <$> hist)));
    [| destruct (6 <=? n)%Z; now left].
  destruct (Py.Qlt_bool _ _).
  - destruct (breakdown_low row) as [bl |].
    + destruct (Py.Qlt_bool _ bl); destruct (6 <=? n)%Z; now left.
    + destruct (6 <=? n)%Z; right; eexists; reflexivity.
  - destruct (breakdown_low row);
      destruct (6 <=? n)%Z; first [now left | right; eexists; reflexivity].
Qed.

(** X25. One pass of the monitor over a row can change nothing but the
    [breakdown_low] of the row of that ticker: its prices, stops, quantity,
    sector and entry date, every other row, the ledger and the account are
    as they were. *)
Theorem monitor_row_frame (ticker : string) (row : Position)
    (cp : option Q) (hist : list (Q * Q)) (trading_days_count : Z)
    (db : DB) :
  let db' := (monitor_row ticker row cp hist trading_days_count db).2 in
  (forall p, portfolio db !! ticker = Some p ->
     exists b, portfolio db' !! ticker = Some (set_breakdown_low b p)) /\
  (portfolio db !! ticker = None -> portfolio db' !! ticker = None) /\
  (forall other, other <> ticker ->
     portfolio db' !! other = portfolio db !! other) /\
  trade_history db' = trade_history db /\
  account_config db' = account_config db.
Proof.
  intros db'.
  destruct (monitor_row_db ticker row cp hist trading_days_count db)
    as [H | [b H]]; fold db' in H; rewrite H.
  - split; [| auto].
    intros p Hp. exists (breakdown_low p). rewrite Hp. now destruct p.
  - unfold set_portfolio. cbn [portfolio trade_history account_config].
    split; [| split; [| split; [| auto]]].
    + intros p Hp. exists b.
      now rewrite lookup_alter, decide_True, Hp.
    + intros Hn. now rewrite lookup_alter, decide_True, Hn.
    + intros other Hne. now rewrite lookup_alter_ne.
Qed.

Lemma truthy_Some (v : Q) : ~ v == 0 -> truthy (Some v) = true.
Proof.
  intros H. unfold truthy. destruct (Qeq_bool v 0) eqn:E; [| reflexivity].
  apply Qeq_bool_iff in E. contradiction.
Qed.

(** X26. The reference low of an undercut, for a row read from the tables,
    a price and a 20-day average that are known and not 0.  The first pass
    with the price below the average stores the low of the latest bar; a
    later pass below the average leaves the stored low alone; a pass with
    the price at or above the average clears it. *)
Theorem monitor_row_breakdown_low (ticker : string) (p : Position)
    (c m : Q) (hist : list (Q * Q)) (trading_days_count : Z) (db : DB) :
  portfolio db !! ticker = Some p ->
  sma20_last (fst <$> hist) = Some m ->
  ~ c == 0 -> ~ m == 0 ->
  let db' :=
    (monitor_row ticker p (Some c) hist trading_days_count db).2 in
  (c < m -> breakdown_low p = None ->
   portfolio db' !! ticker
   = Some (set_breakdown_low (snd <$> last hist) p)) /\
  (c < m -> is_Some (breakdown_low p) -> db' = db) /\
  (m <= c ->
   exists p', portfolio db' !! ticker = Some p' /\ breakdown_low p' = None).
Proof.
  intros Hp Hm Hc Hm0 db'. subst db'. unfold monitor_row.
  rewrite Hm, (truthy_Some c Hc), (truthy_Some m Hm0).
  cbn [andb default from_option id].
  split; [| split].
  - intros Hlt Hb. apply Qlt_bool_iff in Hlt. rewrite Hlt, Hb.
    destruct (6 <=? _)%Z; cbn [snd];
      unfold set_portfolio; cbn [portfolio];
      now rewrite lookup_alter, decide_True, Hp.
  - intros Hlt [bl Hb]. apply Qlt_bool_iff in Hlt. rewrite Hlt, Hb.
    destruct (Py.Qlt_bool c bl); destruct (6 <=? _)%Z; reflexivity.
  - intros Hge. apply Qlt_bool_false_iff in Hge. rewrite Hge.
    destruct (breakdown_low p) as [bl |] eqn:Hb.
    + exists (set_breakdown_low None p).
      destruct (6 <=? _)%Z; cbn [snd];
        unfold set_portfolio; cbn [portfolio];
        now rewrite lookup_alter, decide_True, Hp.
    + exists p. destruct (6 <=? _)%Z; cbn [snd]; auto.
Qed.

(** Twenty bars that close at 100 with a low of 99, and a last bar that
    closes at 90 with a low of 88. *)
Lemma monitor_row_breakdown_low_witness :
  let hist := repeat (100, 99) 19 ++ [(90, 88)] in
  portfolio (monitor_row "AAPL" aapl (Some 90) hist 3 db0).2 !! "AAPL"
  = Some (set_breakdown_low (snd <$> last hist) aapl) /\
  (exists p',
     portfolio (monitor_row "AAPL" aapl (Some 120) hist 3 db0).2 !! "AAPL"
     = Some p' /\ breakdown_low p' = None).
Proof.
  intros hist. split.
  - apply (monitor_row_breakdown_low "AAPL" aapl 90 (1990 # 20) hist 3 db0);
      first [reflexivity | discriminate].
  - apply (monitor_row_breakdown_low "AAPL" aapl 120 (1990 # 20) hist 3
             db0);
      first [reflexivity | discriminate].
Defined.

(** The stored low after the first undercut of the example is 88. *)
Example monitor_row_first_undercut :
  (breakdown_low <$>
     portfolio (monitor_row "AAPL" aapl (Some 90)
                  (repeat (100, 99) 19 ++ [(90, 88)]) 3 db0).2 !! "AAPL")
  = Some (Some 88).
Proof. vm_compute. reflexivity. Qed.

Lemma monitor_row_frame_witness :
  let db' :=
    (monitor_row "AAPL" aapl (Some 90) (repeat (100, 99) 19 ++ [(90, 88)])
       3 db0).2 in
  (exists b, portfolio db' !! "AAPL" = Some (set_breakdown_low b aapl)) /\
  portfolio db' !! "MSFT" = portfolio db0 !! "MSFT" /\
  trade_history db' = trade_history db0 /\
  account_config db' = account_config db0.
Proof.
  intros db'.
  destruct (monitor_row_frame "AAPL" aapl (Some 90)
              (repeat (100, 99) 19 ++ [(90, 88)]) 3 db0)
    as (H1 & _ & H3 & H4 & H5).
  split; [apply H1; reflexivity |].
  split; [apply H3; discriminate |].
  split; [exact H4 | exact H5].
Defined.

(** ** The account *)

(** X27. The credit of an exit is the update of [adjust_equity_by_amount]:
    after [close_position] on an open position the account is what
    [adjust_equity_by_amount] makes of it for the profit of the clamped
    quantity, and after [process_partial_exit] for the profit of the
    quantity as passed. *)
Theorem exit_credit_is_adjustment (ticker : string)
    (exit_price entry_px current_1r_unit : Q) (qty : Z)
    (today now : string) (db : DB) (p : Position) :
  portfolio db !! ticker = Some p ->
  (exists d,
     close_position ticker exit_price qty today now db = Some d /\
     account_config d
     = account_config
         (adjust_equity_by_amount
            ((exit_price - entry_price p)
             * inject_Z (Z.min qty (quantity p))) now db)) /\
  (exists d,
     process_partial_exit ticker qty exit_price entry_px current_1r_unit
       today now db = Some d /\
     account_config d
     = account_config
         (adjust_equity_by_amount
            ((exit_price - entry_px) * inject_Z qty) now db)).
Proof.
  intros Hp. split; eexists.
  - split; [apply (close_position_open _ _ _ _ _ _ _ Hp) | reflexivity].
  - split; [apply (process_partial_exit_open _ _ _ _ _ _ _ _ _ Hp)
           | reflexivity].
Qed.

Lemma exit_credit_is_adjustment_witness :
  exists d,
    close_position "AAPL" 110 25 "2024-03-01" "2024-03-01 10:00:00" db0
    = Some d /\
    account_config d
    = account_config
        (adjust_equity_by_amount
           ((110 - entry_price aapl) * inject_Z (Z.min 25 (quantity aapl)))
           "2024-03-01 10:00:00" db0).
Proof.
  apply (exit_credit_is_adjustment "AAPL" 110 100 100 25 "2024-03-01"
           "2024-03-01 10:00:00" db0 aapl).
  reflexivity.
Defined.

(** X28. Only the rows within the limit count for
    [get_recent_performance]: once the ledger has that many rows, older
    rows behind them do not change the answer. *)
Theorem recent_performance_ignores_older (limit : nat)
    (recent older : list Q) :
  (limit <= length recent)%nat ->
  get_recent_performance limit (recent ++ older)
  = get_recent_performance limit recent.
Proof.
  intros H. unfold get_recent_performance.
  now rewrite take_app_le.
Qed.

Lemma recent_performance_ignores_older_witness :
  get_recent_performance 5 ([-(1); 2; -(2); -(1); -(1)] ++ [3; 4; 5])
  = get_recent_performance 5 [-(1); 2; -(2); -(1); -(1)].
Proof.
  apply (recent_performance_ignores_older 5 [-(1); 2; -(2); -(1); -(1)]).
  simpl. lia.
Defined.

(** ** One row per trade *)

Lemma remove_dups_id (l : list string) : NoDup l -> remove_dups l = l.
Proof.
  induction 1 as [| x l Hx _ IH]; [reflexivity |].
  cbn [remove_dups]. destruct (decide_rel elem_of x l); [contradiction |].
  now rewrite IH.
Qed.

Lemma group_singleton (df : list TradeRow) (r : TradeRow) :
  NoDup (trade_id <$> df) -> r ∈ df -> group df (trade_id r) = [r].
Proof.
  induction df as [| x df IH]; intros Hnd Hr.
  - apply elem_of_nil in Hr. contradiction.
  - rewrite fmap_cons in Hnd. apply NoDup_cons in Hnd.
    destruct Hnd as [Hx Hnd].
    apply elem_of_cons in Hr. destruct Hr as [-> | Hr].
    + unfold group. rewrite filter_cons_True by reflexivity.
      fold (group df (trade_id x)). rewrite group_absent; [reflexivity |].
      intros r' Hr' Heq. apply Hx. rewrite <- Heq.
      now apply list_elem_of_fmap_2.
    + unfold group. rewrite filter_cons_False.
      * now apply IH.
      * intros Heq. apply Hx. rewrite Heq. now apply list_elem_of_fmap_2.
Qed.

Lemma single_total_eq (r : TradeRow) :
  exit_qty r <> 0%Z -> single_total r == r_multiple r.
Proof.
  intros H. unfold single_total.
  assert (~ inject_Z (exit_qty r) == 0).
  { intros H0. apply (inject_Z_injective (exit_qty r) 0) in H0. lia. }
  field. assumption.
Qed.

Lemma total_trade_r_single (df : list TradeRow) (r : TradeRow) :
  NoDup (trade_id <$> df) -> r ∈ df -> exit_qty r <> 0%Z ->
  total_trade_r df (trade_id r) = Some (single_total r).
Proof.
  intros Hnd Hr Hq. unfold total_trade_r.
  rewrite (group_singleton df r Hnd Hr).
  cbn [sum_contributions]. unfold contribution_r.
  rewrite weight_in_group.
  - unfold total_qty_per_trade. rewrite (group_singleton df r Hnd Hr).
    cbn [fmap list_fmap Zsum]. rewrite Z.add_0_r. reflexivity.
  - unfold total_qty_per_trade. rewrite (group_singleton df r Hnd Hr).
    cbn [fmap list_fmap Zsum]. lia.
Qed.

Lemma trade_grouped_single (df l : list TradeRow) :
  NoDup (trade_id <$> df) ->
  (forall r, r ∈ l -> r ∈ df /\ exit_qty r <> 0%Z) ->
  mapM (total_trade_r df) (trade_id <$> l) = Some (single_total <$> l).
Proof.
  intros Hnd. induction l as [| r l IH]; intros Hl; [reflexivity |].
  rewrite !fmap_cons. cbn [mapM].
  destruct (Hl r ltac:(left)) as [Hr Hq].
  rewrite (total_trade_r_single df r Hnd Hr Hq). cbn [mbind option_bind].
  rewrite IH by (intros r' Hr'; apply Hl; now right).
  reflexivity.
Qed.

Lemma Qsum_pointwise {A : Type} (f g : A -> Q) (l : list A) :
  (forall x, x ∈ l -> f x == g x) -> Qsum (f <$> l) == Qsum (g <$> l).
Proof.
  induction l as [| x l IH]; intros H; [reflexivity |].
  rewrite !fmap_cons. cbn [Qsum].
  rewrite (H x ltac:(left)), IH; [reflexivity |].
  intros y Hy. apply H. now right.
Qed.

Lemma Qlt_bool_proper (x y : Q) :
  x == y -> Py.Qlt_bool 0 x = Py.Qlt_bool 0 y.
Proof.
  intros H.
  destruct (Py.Qlt_bool 0 x) eqn:Ex; destruct (Py.Qlt_bool 0 y) eqn:Ey;
    try reflexivity.
  - apply Qlt_bool_iff in Ex. apply Qlt_bool_false_iff in Ey. lra.
  - apply Qlt_bool_iff in Ey. apply Qlt_bool_false_iff in Ex. lra.
Qed.

Lemma count_positive_indicator (l : list Q) :
  inject_Z (count_positive l)
  == Qsum ((fun x => if Py.Qlt_bool 0 x then 1 else 0) <$> l).
Proof.
  unfold count_positive. induction l as [| x l IH]; [reflexivity |].
  rewrite fmap_cons. cbn [Qsum]. rewrite <- IH.
  destruct (Py.Qlt_bool 0 x) eqn:E.
  - rewrite filter_cons_True by (now rewrite E).
    cbn [length]. rewrite Nat2Z.inj_succ, <- Z.add_1_l, inject_Z_plus.
    reflexivity.
  - rewrite filter_cons_False by (now rewrite E). lra.
Qed.

(** X29. On a ledger in which every row is a trade of its own (no trade id
    twice, no exit quantity 0), grouping changes nothing: the expectancy,
    the win rate and the number of trades computed with the grouping
    columns are those of the fallback for a frame without them, the mean
    and the win rate over the rows. *)
Theorem one_row_per_trade_is_row_mean (df : list TradeRow) :
  df <> [] ->
  NoDup (trade_id <$> df) ->
  Forall (fun r => exit_qty r <> 0%Z) df ->
  exists e w n e' w' n',
    calculate_real_expectancy true df = Some (e, w, n) /\
    calculate_real_expectancy false df = Some (e', w', n') /\
    e == e' /\ w == w' /\ n = n'.
Proof.
  intros Hne Hnd Hq.
  destruct df as [| r0 df']; [contradiction |].
  set (df := r0 :: df') in *.
  assert (Htot : trade_grouped df = Some (single_total <$> df)).
  { unfold trade_grouped. rewrite remove_dups_id by exact Hnd.
    apply trade_grouped_single; [exact Hnd |].
    intros r Hr. split; [exact Hr |].
    rewrite Forall_forall in Hq. now apply Hq. }
  assert (Hlen : (0 < Z.of_nat (length df))%Z) by (unfold df; simpl; lia).
  pose proof (inject_Z_pos _ Hlen) as Hlen'.
  unfold calculate_real_expectancy. fold df.
  change (match df with [] => _ | _ :: _ => ?b end) with b.
  cbn [negb]. rewrite Htot. cbn [mbind option_bind].
  rewrite !length_fmap.
  rewrite (proj2 (Z.ltb_lt _ _) Hlen).
  rewrite pydiv_Some by lra. cbn [mbind option_bind].
  eexists _, _, _, _, _, _.
  split; [reflexivity |]. split; [reflexivity |].
  assert (Hpt : forall r, r ∈ df -> single_total r == r_multiple r).
  { intros r Hr. apply single_total_eq.
    rewrite Forall_forall in Hq. now apply Hq. }
  split; [| split; [| reflexivity]].
  - unfold mean. rewrite !length_fmap.
    now rewrite (Qsum_pointwise single_total r_multiple df Hpt).
  - unfold mean. rewrite !length_fmap.
    rewrite count_positive_indicator.
    rewrite <- !list_fmap_compose.
    rewrite (Qsum_pointwise
               ((fun x => if Py.Qlt_bool 0 x then 1 else 0) ∘ single_total)
               ((fun x => if Py.Qlt_bool 0 x then 1 else 0) ∘ r_multiple)
               df).
    + reflexivity.
    + intros r Hr. unfold compose.
      now rewrite (Qlt_bool_proper _ _ (Hpt r Hr)).
Qed.

Lemma one_row_per_trade_is_row_mean_witness :
  let df := [ {| tr_ticker := "AAPL"; tr_entry_date := "2024-01-02";
                 tr_exit_date := "2024-03-01"; tr_entry_price := 100;
                 tr_exit_price := 110; r_multiple := 2;
                 trade_id := "AAPL_2024-01-02"; exit_qty := 20 |};
              {| tr_ticker := "MSFT"; tr_entry_date := "2024-01-03";
                 tr_exit_date := "2024-02-10"; tr_entry_price := 400;
                 tr_exit_price := 380; r_multiple := -(1);
                 trade_id := "MSFT_2024-01-03"; exit_qty := 10 |} ] in
  exists e w n e' w' n',
    calculate_real_expectancy true df = Some (e, w, n) /\
    calculate_real_expectancy false df = Some (e', w', n') /\
    e == e' /\ w == w' /\ n = n'.
Proof.
  intros df. apply (one_row_per_trade_is_row_mean df).
  - discriminate.
  - simpl. repeat constructor.
    + intros H. apply elem_of_cons in H. destruct H as [H | H];
        [discriminate | apply elem_of_nil in H; contradiction].
    + intros H. apply elem_of_nil in H. contradiction.
  - repeat constructor; discriminate.
Defined.
